(** * awsclient: credential resolution and the AWS service facade

    A shallow embedding of [pkg/awsclient/client.go].  The package wraps four
    AWS SDK clients behind one struct, [AwsClient], and builds that struct
    from a [NewAwsClientInput] in [GetAWSClient].

    Go strings are byte sequences, modelled by [string]; [map[string][]byte]
    is a [gmap string (list byte)]; the process environment is a
    [gmap string string].  Calls that leave the package (the Kubernetes
    client, [os.Setenv], [session.NewSession]) are recorded, in order, in the
    history of the process, so that "no call is issued" is a statement about
    that history. *)

From Stdlib Require Import Strings.String Strings.Ascii Strings.Byte Lists.List.
From stdpp Require Import base decidable option list gmap strings.

Import ListNotations.
Local Open Scope string_scope.

(** ** Errors and results *)

(** A Go [error] value.  [fmt.Errorf] without [%w] yields a value that only
    carries its message; errors of the AWS SDK ([awserr.Error]) also carry a
    code.  Collaborators may return either kind. *)
Inductive error : Type :=
  | errorString (msg : string)
  | awserrError (code message : string).

(** The pair [(v, err)] a Go function returns, when exactly one of the two is
    set, as [GetAWSClient] and [NewClient] do. *)
Inductive result (T : Type) : Type :=
  | Ok (v : T)
  | Err (err : error).
Arguments Ok {T} v.
Arguments Err {T} err.

Module fmt.
(** [fmt.Errorf(format, args...)], applied to the formatted message. *)
Definition Errorf (msg : string) : error := errorString msg.
End fmt.

(** ** Types of the collaborators *)

Module corev1.
(** [corev1.Secret], reduced to the field the package reads. *)
Record Secret : Type := { Data : gmap string (list byte) }.
End corev1.

Module types.
Record NamespacedName : Type := { Namespace : string; Name : string }.
End types.

Module kubeclientpkg.
(** [Client.Get(ctx, key, obj) error]: the object passed in comes back
    filled, together with the error ([None] is Go's [nil]). *)
Record Client : Type :=
  { Get : types.NamespacedName -> corev1.Secret -> corev1.Secret * option error }.
End kubeclientpkg.

Module credentials.
(** The value built by [credentials.NewStaticCredentials(id, secret, token)]. *)
Inductive Credentials : Type :=
  | NewStaticCredentials (id secret token : string).
End credentials.

Module aws.
(** [aws.Config], reduced to the two fields [NewClient] sets. *)
Record Config : Type :=
  { Region : string; Credentials : option credentials.Credentials }.
End aws.

(** The SDK operations the facade forwards, per service package. *)
Module elb.
Inductive Operation : Type :=
  | ApplySecurityGroupsToLoadBalancer
  | ConfigureHealthCheck
  | CreateLoadBalancer
  | CreateLoadBalancerListeners
  | DeleteLoadBalancerListeners
  | DeregisterInstancesFromLoadBalancer
  | DescribeLoadBalancers
  | DescribeTags
  | RegisterInstancesWithLoadBalancer.
End elb.

Module elbv2.
Inductive Operation : Type :=
  | DescribeLoadBalancers
  | DeleteLoadBalancer
  | CreateLoadBalancer
  | CreateTargetGroup
  | RegisterTargets
  | CreateListener
  | DescribeTargetGroups
  | AddTags.
End elbv2.

Module route53.
Inductive Operation : Type :=
  | ChangeResourceRecordSets
  | ListHostedZonesByName.
End route53.

Module ec2.
Inductive Operation : Type :=
  | AuthorizeSecurityGroupIngress
  | CreateSecurityGroup
  | DeleteSecurityGroup
  | DescribeSecurityGroups
  | RevokeSecurityGroupIngress
  | DescribeSubnets
  | CreateTags.
End ec2.

(** The types the SDK leaves opaque to this package: the state of the remote
    services, a session, and for each operation [Op] the structures
    [*pkg.OpInput] and [*pkg.OpOutput]. *)
Class SdkTypes : Type :=
  { Remote : Type;
    Session : Type;
    elb_Input : elb.Operation -> Type;
    elb_Output : elb.Operation -> Type;
    elbv2_Input : elbv2.Operation -> Type;
    elbv2_Output : elbv2.Operation -> Type;
    route53_Input : route53.Operation -> Type;
    route53_Output : route53.Operation -> Type;
    ec2_Input : ec2.Operation -> Type;
    ec2_Output : ec2.Operation -> Type }.

(** One SDK method, from an input structure to an output structure and an
    error: it acts on the remote state, and either of the two values it
    returns may be [nil]. *)
Definition Request `{SdkTypes} (In Out : Type) : Type :=
  In -> Remote -> (option Out * option error) * Remote.

Module elbiface.
Definition ELBAPI `{SdkTypes} : Type :=
  forall op : elb.Operation, Request (elb_Input op) (elb_Output op).
End elbiface.

Module elbv2iface.
Definition ELBV2API `{SdkTypes} : Type :=
  forall op : elbv2.Operation, Request (elbv2_Input op) (elbv2_Output op).
End elbv2iface.

Module route53iface.
Definition Route53API `{SdkTypes} : Type :=
  forall op : route53.Operation, Request (route53_Input op) (route53_Output op).
End route53iface.

Module ec2iface.
Definition EC2API `{SdkTypes} : Type :=
  forall op : ec2.Operation, Request (ec2_Input op) (ec2_Output op).
End ec2iface.

(** The SDK entry points [NewClient] calls.  [session.NewSession] reads the
    configuration and the process environment; the four [New] functions wrap
    a session in a service client. *)
Class Sdk `{SdkTypes} : Type :=
  { session_NewSession : aws.Config -> gmap string string -> result Session;
    ec2_New : Session -> ec2iface.EC2API;
    elb_New : Session -> elbiface.ELBAPI;
    elbv2_New : Session -> elbv2iface.ELBV2API;
    route53_New : Session -> route53iface.Route53API }.

(** ** The process: environment and calls issued *)

(** A call that leaves the package during credential resolution. *)
Inductive Call : Type :=
  | CallGet (key : types.NamespacedName)
  | CallSetenv (key value : string)
  | CallNewSession (cfg : aws.Config).

Record Process : Type :=
  { environ : gmap string string;
    history : list Call }.

Definition Proc (A : Type) : Type := Process -> A * Process.

Definition ret {A : Type} (a : A) : Proc A := fun p => (a, p).

Definition bind {A B : Type} (m : Proc A) (k : A -> Proc B) : Proc B :=
  fun p => let (a, p') := m p in k a p'.

Declare Scope proc_scope.
Delimit Scope proc_scope with proc.
Notation "x <- m ;; k" := (bind m (fun x => k))
  (at level 100, m at next level, right associativity) : proc_scope.
Notation "m ;; k" := (bind m (fun _ => k))
  (at level 100, right associativity) : proc_scope.

Definition record (c : Call) (p : Process) : Process :=
  {| environ := environ p; history := history p ++ [c] |}.

Definition is_lookup (c : Call) : bool :=
  match c with CallGet _ => true | _ => false end.

(** The lookups among the calls issued so far. *)
Definition lookups (p : Process) : list Call := List.filter is_lookup (history p).

Module os.
Fixpoint hasByte (c : ascii) (s : string) : bool :=
  match s with
  | EmptyString => false
  | String a s' => if Ascii.eqb a c then true else hasByte c s'
  end.

(** The check [Setenv] makes before it touches the environment: the name is
    not empty and holds neither an equals sign nor a NUL byte, and the value
    holds no NUL byte. *)
Definition settable (key value : string) : bool :=
  negb (String.eqb key "") && negb (hasByte "="%char key)
  && negb (hasByte Ascii.zero key) && negb (hasByte Ascii.zero value).

(** The environment after [Setenv]: the variable is set when the check
    passes, and the environment is left as it was when it does not. *)
Definition put (key value : string) (env : gmap string string)
  : gmap string string :=
  if settable key value then <[key := value]> env else env.

(** [os.Setenv(key, value)]: the variable is set for the whole process, or
    the call is refused with the error of an invalid argument. *)
Definition Setenv (key value : string) : Proc (option error) :=
  fun p => (if settable key value then None
            else Some (errorString "setenv: invalid argument"),
            {| environ := put key value (environ p);
               history := history p ++ [CallSetenv key value] |}).
End os.

(** [kubeClient.Get(context.TODO(), key, obj)]. *)
Definition client_Get (kubeClient : kubeclientpkg.Client)
    (key : types.NamespacedName) (obj : corev1.Secret)
  : Proc (corev1.Secret * option error) :=
  fun p => (kubeclientpkg.Get kubeClient key obj, record (CallGet key) p).

Module session.
(** [session.NewSession(cfg)]. *)
Definition NewSession `{Sdk} (cfg : aws.Config) : Proc (result Session) :=
  fun p => (session_NewSession cfg (environ p), record (CallNewSession cfg) p).
End session.

(** ** client.go *)

Definition awsCredsSecretIDKey : string := "aws_access_key_id".
Definition awsCredsSecretAccessKey : string := "aws_secret_access_key".

Record NewAwsClientInput : Type :=
  { AwsCredsSecretIDKey : string;
    AwsCredsSecretAccessKey : string;
    AwsToken : string;
    AwsRegion : string;
    SecretName : string;
    NameSpace : string }.

(** [%v] of a [NewAwsClientInput]: the fields in declaration order, separated
    by spaces, between braces. *)
Definition fmt_v (input : NewAwsClientInput) : string :=
  "{" ++ AwsCredsSecretIDKey input ++ " " ++ AwsCredsSecretAccessKey input
      ++ " " ++ AwsToken input ++ " " ++ AwsRegion input
      ++ " " ++ SecretName input ++ " " ++ NameSpace input ++ "}".

Record AwsClient `{SdkTypes} : Type :=
  { ec2Client : ec2iface.EC2API;
    route53Client : route53iface.Route53API;
    elbClient : elbiface.ELBAPI;
    elbv2Client : elbv2iface.ELBV2API }.

Section Resolver.
Context `{Sdk}.
Local Open Scope proc_scope.

Definition NewClient (accessID accessSecret token region : string)
  : Proc (result AwsClient) :=
  let awsConfig := {| aws.Region := region; aws.Credentials := None |} in
  awsConfig <-
    (if decide (token = "") then
       os.Setenv "AWS_ACCESS_KEY_ID" accessID ;;
       os.Setenv "AWS_SECRET_ACCESS_KEY" accessSecret ;;
       ret awsConfig
     else
       ret {| aws.Region := aws.Region awsConfig;
              aws.Credentials :=
                Some (credentials.NewStaticCredentials accessID accessSecret token) |}) ;;
  r <- session.NewSession awsConfig ;;
  match r with
  | Err err => ret (Err err)
  | Ok s =>
      ret (Ok {| ec2Client := ec2_New s;
                 elbClient := elb_New s;
                 elbv2Client := elbv2_New s;
                 route53Client := route53_New s |})
  end.

Definition GetAWSClient (kubeClient : kubeclientpkg.Client)
    (input : NewAwsClientInput) : Proc (result AwsClient) :=
  if decide (AwsRegion input = "") then
    ret (Err (fmt.Errorf ("getAWSClient:NoRegion: " ++ AwsRegion input)))
  else if decide (SecretName input <> "" /\ NameSpace input <> "") then
    let secret := {| corev1.Data := ∅ |} in
    got <-
       client_Get kubeClient
         {| types.Name := SecretName input;
            types.Namespace := NameSpace input |}
         secret ;;
    let '(secret, err) := got in
    match err with
    | Some err => ret (Err err)
    | None =>
        match corev1.Data secret !! awsCredsSecretIDKey with
        | None =>
            ret (Err (fmt.Errorf ("AWS credentials secret " ++ SecretName input
                                  ++ " did not contain key " ++ awsCredsSecretIDKey)))
        | Some accessKeyID =>
            match corev1.Data secret !! awsCredsSecretAccessKey with
            | None =>
                ret (Err (fmt.Errorf ("AWS credentials secret " ++ SecretName input
                                      ++ " did not contain key " ++ awsCredsSecretAccessKey)))
            | Some secretAccessKey =>
                r <- NewClient (string_of_list_byte accessKeyID)
                               (string_of_list_byte secretAccessKey)
                               (AwsToken input) (AwsRegion input) ;;
                match r with
                | Err err => ret (Err err)
                | Ok AwsClient => ret (Ok AwsClient)
                end
            end
        end
    end
  else if decide (AwsCredsSecretIDKey input = "" /\ AwsCredsSecretAccessKey input <> "") then
    ret (Err (fmt.Errorf ("getAWSClient: NoAwsCredentials or Secret " ++ fmt_v input)))
  else
    r <- NewClient (AwsCredsSecretIDKey input) (AwsCredsSecretAccessKey input)
                   (AwsToken input) (AwsRegion input) ;;
    match r with
    | Err err => ret (Err err)
    | Ok AwsClient => ret (Ok AwsClient)
    end.
End Resolver.

(** ** The facade: one method per forwarded SDK operation *)

Section Facade.
Context `{SdkTypes}.

Definition ApplySecurityGroupsToLoadBalancer (c : AwsClient)
  : Request (elb_Input elb.ApplySecurityGroupsToLoadBalancer)
            (elb_Output elb.ApplySecurityGroupsToLoadBalancer) :=
  fun i => elbClient c elb.ApplySecurityGroupsToLoadBalancer i.

Definition ConfigureHealthCheck (c : AwsClient)
  : Request (elb_Input elb.ConfigureHealthCheck) (elb_Output elb.ConfigureHealthCheck) :=
  fun i => elbClient c elb.ConfigureHealthCheck i.

Definition CreateLoadBalancer (c : AwsClient)
  : Request (elb_Input elb.CreateLoadBalancer) (elb_Output elb.CreateLoadBalancer) :=
  fun i => elbClient c elb.CreateLoadBalancer i.

Definition CreateLoadBalancerListeners (c : AwsClient)
  : Request (elb_Input elb.CreateLoadBalancerListeners)
            (elb_Output elb.CreateLoadBalancerListeners) :=
  fun i => elbClient c elb.CreateLoadBalancerListeners i.

Definition DeleteLoadBalancerListeners (c : AwsClient)
  : Request (elb_Input elb.DeleteLoadBalancerListeners)
            (elb_Output elb.DeleteLoadBalancerListeners) :=
  fun i => elbClient c elb.DeleteLoadBalancerListeners i.

Definition DeregisterInstancesFromLoadBalancer (c : AwsClient)
  : Request (elb_Input elb.DeregisterInstancesFromLoadBalancer)
            (elb_Output elb.DeregisterInstancesFromLoadBalancer) :=
  fun i => elbClient c elb.DeregisterInstancesFromLoadBalancer i.

Definition DescribeLoadBalancers (c : AwsClient)
  : Request (elb_Input elb.DescribeLoadBalancers) (elb_Output elb.DescribeLoadBalancers) :=
  fun i => elbClient c elb.DescribeLoadBalancers i.

Definition DescribeLoadBalancersV2 (c : AwsClient)
  : Request (elbv2_Input elbv2.DescribeLoadBalancers)
            (elbv2_Output elbv2.DescribeLoadBalancers) :=
  fun i => elbv2Client c elbv2.DescribeLoadBalancers i.

Definition DeleteLoadBalancerV2 (c : AwsClient)
  : Request (elbv2_Input elbv2.DeleteLoadBalancer) (elbv2_Output elbv2.DeleteLoadBalancer) :=
  fun i => elbv2Client c elbv2.DeleteLoadBalancer i.

Definition CreateLoadBalancerV2 (c : AwsClient)
  : Request (elbv2_Input elbv2.CreateLoadBalancer) (elbv2_Output elbv2.CreateLoadBalancer) :=
  fun i => elbv2Client c elbv2.CreateLoadBalancer i.

Definition CreateTargetGroupV2 (c : AwsClient)
  : Request (elbv2_Input elbv2.CreateTargetGroup) (elbv2_Output elbv2.CreateTargetGroup) :=
  fun i => elbv2Client c elbv2.CreateTargetGroup i.

Definition RegisterTargetsV2 (c : AwsClient)
  : Request (elbv2_Input elbv2.RegisterTargets) (elbv2_Output elbv2.RegisterTargets) :=
  fun i => elbv2Client c elbv2.RegisterTargets i.

Definition CreateListenerV2 (c : AwsClient)
  : Request (elbv2_Input elbv2.CreateListener) (elbv2_Output elbv2.CreateListener) :=
  fun i => elbv2Client c elbv2.CreateListener i.

Definition DescribeTags (c : AwsClient)
  : Request (elb_Input elb.DescribeTags) (elb_Output elb.DescribeTags) :=
  fun i => elbClient c elb.DescribeTags i.

Definition RegisterInstancesWithLoadBalancer (c : AwsClient)
  : Request (elb_Input elb.RegisterInstancesWithLoadBalancer)
            (elb_Output elb.RegisterInstancesWithLoadBalancer) :=
  fun i => elbClient c elb.RegisterInstancesWithLoadBalancer i.

Definition DescribeTargetGroupsV2 (c : AwsClient)
  : Request (elbv2_Input elbv2.DescribeTargetGroups)
            (elbv2_Output elbv2.DescribeTargetGroups) :=
  fun i => elbv2Client c elbv2.DescribeTargetGroups i.

Definition AddTagsV2 (c : AwsClient)
  : Request (elbv2_Input elbv2.AddTags) (elbv2_Output elbv2.AddTags) :=
  fun i => elbv2Client c elbv2.AddTags i.

Definition ChangeResourceRecordSets (c : AwsClient)
  : Request (route53_Input route53.ChangeResourceRecordSets)
            (route53_Output route53.ChangeResourceRecordSets) :=
  fun i => route53Client c route53.ChangeResourceRecordSets i.

Definition ListHostedZonesByName (c : AwsClient)
  : Request (route53_Input route53.ListHostedZonesByName)
            (route53_Output route53.ListHostedZonesByName) :=
  fun i => route53Client c route53.ListHostedZonesByName i.

Definition AuthorizeSecurityGroupIngress (c : AwsClient)
  : Request (ec2_Input ec2.AuthorizeSecurityGroupIngress)
            (ec2_Output ec2.AuthorizeSecurityGroupIngress) :=
  fun i => ec2Client c ec2.AuthorizeSecurityGroupIngress i.

Definition CreateSecurityGroup (c : AwsClient)
  : Request (ec2_Input ec2.CreateSecurityGroup) (ec2_Output ec2.CreateSecurityGroup) :=
  fun i => ec2Client c ec2.CreateSecurityGroup i.

Definition DeleteSecurityGroup (c : AwsClient)
  : Request (ec2_Input ec2.DeleteSecurityGroup) (ec2_Output ec2.DeleteSecurityGroup) :=
  fun i => ec2Client c ec2.DeleteSecurityGroup i.

Definition DescribeSecurityGroups (c : AwsClient)
  : Request (ec2_Input ec2.DescribeSecurityGroups) (ec2_Output ec2.DescribeSecurityGroups) :=
  fun i => ec2Client c ec2.DescribeSecurityGroups i.

Definition RevokeSecurityGroupIngress (c : AwsClient)
  : Request (ec2_Input ec2.RevokeSecurityGroupIngress)
            (ec2_Output ec2.RevokeSecurityGroupIngress) :=
  fun i => ec2Client c ec2.RevokeSecurityGroupIngress i.

Definition DescribeSubnets (c : AwsClient)
  : Request (ec2_Input ec2.DescribeSubnets) (ec2_Output ec2.DescribeSubnets) :=
  fun i => ec2Client c ec2.DescribeSubnets i.

Definition CreateTags (c : AwsClient)
  : Request (ec2_Input ec2.CreateTags) (ec2_Output ec2.CreateTags) :=
  fun i => ec2Client c ec2.CreateTags i.
End Facade.

(** ** The existence check, declared in [Client] *)

Section Helpers.
Context `{SdkTypes}.

(** What the specification leaves open about the helper: the descriptor
    type, the describe operation it issues and how a name becomes its
    request, how descriptors are read off the output, the error code that
    means "not found", and the answer when the call succeeds with no
    descriptor. *)
Context {AWSLoadBalancer DescribeIn DescribeOut : Type}.
Variable describe : AwsClient -> Request DescribeIn DescribeOut.
Variable describeInput : string -> DescribeIn.
Variable descriptions : option DescribeOut -> list AWSLoadBalancer.
Variable notFoundCode : string.
Variable emptyAnswer : bool * option AWSLoadBalancer * option error.

(** Modelled from the spec: the body of [DoesELBExist], which [client.go]
    only declares in the [Client] interface.  It issues one describe call;
    an error carrying the not-found code is a negative answer, any other
    error is returned, and a non-empty result is a positive answer with its
    first descriptor. *)
Definition DoesELBExist (c : AwsClient) (elbName : string)
  : Remote -> (bool * option AWSLoadBalancer * option error) * Remote :=
  fun r =>
    let '((output, err), r') := describe c (describeInput elbName) r in
    match err with
    | Some (awserrError code message) =>
        if decide (code = notFoundCode) then ((false, None, None), r')
        else ((false, None, Some (awserrError code message)), r')
    | Some err => ((false, None, Some err), r')
    | None =>
        match descriptions output with
        | d :: _ => ((true, Some d, None), r')
        | [] => (emptyAnswer, r')
        end
    end.
End Helpers.

(** ** Test doubles

    A stand-in SDK and Kubernetes client on which the definitions above
    compute: every input and output structure is a string, a session
    remembers the configuration it was built from, and the remote state is
    the log of the requests received. *)

Module fake.
Definition types : SdkTypes :=
  {| Remote := list string;
     Session := aws.Config;
     elb_Input := fun _ => string;
     elb_Output := fun _ => string;
     elbv2_Input := fun _ => string;
     elbv2_Output := fun _ => string;
     route53_Input := fun _ => string;
     route53_Output := fun _ => string;
     ec2_Input := fun _ => string;
     ec2_Output := fun _ => string |}.

(** A request is logged under the name of its service; the empty input is
    rejected, any other input is echoed. *)
Definition request (service : string) : @Request types string string :=
  fun i r =>
    if decide (i = "") then
      ((None, Some (awserrError "ValidationError" service)), (r ++ [service])%list)
    else ((Some i, None), (r ++ [service])%list).

Definition sdk : @Sdk types :=
  {| session_NewSession := fun cfg _ => Ok (cfg : @Session types);
     ec2_New := fun _ _ => request "ec2";
     elb_New := fun _ _ => request "elb";
     elbv2_New := fun _ _ => request "elbv2";
     route53_New := fun _ _ => request "route53" |}.

(** The facade [NewClient] returns for a session of the stand-in SDK. *)
Definition client : @AwsClient types :=
  {| ec2Client := fun _ => request "ec2";
     elbClient := fun _ => request "elb";
     elbv2Client := fun _ => request "elbv2";
     route53Client := fun _ => request "route53" |}.

(** A Kubernetes client whose every secret holds [data]. *)
Definition kube (data : gmap string (list byte)) : kubeclientpkg.Client :=
  {| kubeclientpkg.Get := fun _ _ => ({| corev1.Data := data |}, None) |}.

Definition process : Process := {| environ := ∅; history := [] |}.

(** The describe call of the existence check on the stand-in SDK: the
    classic load balancer named [gone] does not exist. *)
Definition describe (c : @AwsClient types) : @Request types string string :=
  fun i r =>
    if decide (i = "gone") then
      ((None, Some (awserrError "LoadBalancerNotFound" i)), (r ++ ["elb"])%list)
    else @DescribeLoadBalancers types c i r.

Definition descriptions (o : option string) : list string :=
  match o with Some d => [d] | None => [] end.
End fake.

(** Secrets and configurations used in the examples. *)

Definition secretWithAwsKeys : gmap string (list byte) :=
  <[awsCredsSecretIDKey := list_byte_of_string "AKIA"]>
    (<[awsCredsSecretAccessKey := list_byte_of_string "hunter2"]> ∅).

Definition secretWithUnprefixedKeys : gmap string (list byte) :=
  <["access_key_id" := list_byte_of_string "AKIA"]>
    (<["secret_access_key" := list_byte_of_string "hunter2"]> ∅).

Definition secretWithIDOnly : gmap string (list byte) :=
  <[awsCredsSecretIDKey := list_byte_of_string "AKIA"]> ∅.

Definition secretWithEmptyValues : gmap string (list byte) :=
  <[awsCredsSecretIDKey := []]> (<[awsCredsSecretAccessKey := []]> ∅).

Definition inputWithSecret : NewAwsClientInput :=
  {| AwsCredsSecretIDKey := ""; AwsCredsSecretAccessKey := "";
     AwsToken := ""; AwsRegion := "us-east-1";
     SecretName := "x"; NameSpace := "y" |}.

Definition inputWithSecretAndInline : NewAwsClientInput :=
  {| AwsCredsSecretIDKey := "inline-id"; AwsCredsSecretAccessKey := "inline-secret";
     AwsToken := ""; AwsRegion := "us-east-1";
     SecretName := "x"; NameSpace := "y" |}.

Definition inputWithoutRegion : NewAwsClientInput :=
  {| AwsCredsSecretIDKey := "inline-id"; AwsCredsSecretAccessKey := "inline-secret";
     AwsToken := "token"; AwsRegion := "";
     SecretName := "x"; NameSpace := "y" |}.

Definition inputSecretOnly : NewAwsClientInput :=
  {| AwsCredsSecretIDKey := ""; AwsCredsSecretAccessKey := "inline-secret";
     AwsToken := ""; AwsRegion := "us-east-1";
     SecretName := ""; NameSpace := "" |}.


(** Further stand-ins: a Kubernetes client whose lookups fail with [err], an
    SDK whose sessions cannot be opened, a Kubernetes client whose record
    holds other fields next to the two read, and a process that already has
    ambient credentials in its environment. *)

Definition failingKube (err : error) : kubeclientpkg.Client :=
  {| kubeclientpkg.Get := fun _ obj => (obj, Some err) |}.

Definition offlineSdk : @Sdk fake.types :=
  {| session_NewSession :=
       fun _ _ => Err (awserrError "NoCredentialProviders" "no valid providers in chain");
     ec2_New := fun _ _ => fake.request "ec2";
     elb_New := fun _ _ => fake.request "elb";
     elbv2_New := fun _ _ => fake.request "elbv2";
     route53_New := fun _ _ => fake.request "route53" |}.

Definition secretWithExtraFields : gmap string (list byte) :=
  <["region" := list_byte_of_string "eu-west-1"]> secretWithAwsKeys.

Definition processWithAmbient : Process :=
  {| environ := <["AWS_ACCESS_KEY_ID" := "ambient-id"]>
                  (<["AWS_SECRET_ACCESS_KEY" := "ambient-secret"]>
                     (<["HOME" := "/root"]> ∅));
     history := [] |}.

Definition inputWithSecretAndToken : NewAwsClientInput :=
  {| AwsCredsSecretIDKey := ""; AwsCredsSecretAccessKey := "";
     AwsToken := "token"; AwsRegion := "us-east-1";
     SecretName := "x"; NameSpace := "y" |}.

(** An access key with a NUL byte in it. *)
Definition accessIDWithNul : string := "AK" ++ String Ascii.zero "IA".

Definition inputRegionOnly : NewAwsClientInput :=
  {| AwsCredsSecretIDKey := ""; AwsCredsSecretAccessKey := "";
     AwsToken := ""; AwsRegion := "us-east-1";
     SecretName := ""; NameSpace := "" |}.

Definition inputInline : NewAwsClientInput :=
  {| AwsCredsSecretIDKey := "inline-id"; AwsCredsSecretAccessKey := "inline-secret";
     AwsToken := ""; AwsRegion := "us-east-1";
     SecretName := ""; NameSpace := "" |}.

(** * Properties *)

(** ** Auxiliary facts *)

Section ResolverFacts.
Context `{Sdk}.

Lemma bind_result_id {T : Type} (m : Proc (result T)) (p : Process) :
  bind m (fun r => match r with
                   | Err err => ret (Err err)
                   | Ok v => ret (Ok v)
                   end) p = m p.
Proof.
  unfold bind, ret. destruct (m p) as [[v | err] p']; reflexivity.
Qed.

(** The facade built from a session. *)
Lemma NewClient_empty_token (accessID accessSecret region : string) (p : Process) :
  let cfg := {| aws.Region := region; aws.Credentials := None |} in
  let env := os.put "AWS_SECRET_ACCESS_KEY" accessSecret
               (os.put "AWS_ACCESS_KEY_ID" accessID (environ p)) in
  NewClient accessID accessSecret "" region p =
    (match session_NewSession cfg env with
     | Err err => Err err
     | Ok s => Ok {| ec2Client := ec2_New s; elbClient := elb_New s;
                     elbv2Client := elbv2_New s; route53Client := route53_New s |}
     end,
     {| environ := env;
        history := history p ++ [CallSetenv "AWS_ACCESS_KEY_ID" accessID;
                                 CallSetenv "AWS_SECRET_ACCESS_KEY" accessSecret;
                                 CallNewSession cfg] |}).
Proof.
  intros cfg env. unfold NewClient, bind, ret, os.Setenv, session.NewSession, record.
  destruct (decide ("" = "")) as [_ | Hne]; [| contradiction].
  cbn. rewrite <- !app_assoc. cbn.
  destruct (session_NewSession _ _); reflexivity.
Qed.

Lemma NewClient_with_token (accessID accessSecret token region : string) (p : Process) :
  token <> "" ->
  let cfg := {| aws.Region := region;
                aws.Credentials :=
                  Some (credentials.NewStaticCredentials accessID accessSecret token) |} in
  NewClient accessID accessSecret token region p =
    (match session_NewSession cfg (environ p) with
     | Err err => Err err
     | Ok s => Ok {| ec2Client := ec2_New s; elbClient := elb_New s;
                     elbv2Client := elbv2_New s; route53Client := route53_New s |}
     end,
     record (CallNewSession cfg) p).
Proof.
  intros Htoken cfg. unfold NewClient, bind, ret, session.NewSession.
  destruct (decide (token = "")) as [Heq | _]; [contradiction |].
  cbn. destruct (session_NewSession _ _); reflexivity.
Qed.

(** [NewClient] issues no lookup. *)
Lemma NewClient_lookups (accessID accessSecret token region : string) (p : Process) :
  lookups (NewClient accessID accessSecret token region p).2 = lookups p.
Proof.
  destruct (decide (token = "")) as [-> | Htoken].
  - rewrite NewClient_empty_token. unfold lookups. cbn.
    rewrite List.filter_app. cbn. apply app_nil_r.
  - rewrite NewClient_with_token by assumption. unfold lookups, record. cbn.
    rewrite List.filter_app. cbn. apply app_nil_r.
Qed.
End ResolverFacts.

(** What [os.Setenv] does to the environment. *)

Lemma put_settable (key value : string) (env : gmap string string) :
  os.settable key value = true -> os.put key value env = <[key := value]> env.
Proof. intros Hok. unfold os.put. rewrite Hok. reflexivity. Qed.

Lemma put_lookup_ne (key value name : string) (env : gmap string string) :
  name <> key -> os.put key value env !! name = env !! name.
Proof.
  intros Hne. unfold os.put. destruct (os.settable key value); [| reflexivity].
  apply lookup_insert_ne. congruence.
Qed.

Lemma settable_access_key (value : string) :
  os.settable "AWS_ACCESS_KEY_ID" value = negb (os.hasByte Ascii.zero value).
Proof. reflexivity. Qed.

Lemma settable_secret_key (value : string) :
  os.settable "AWS_SECRET_ACCESS_KEY" value = negb (os.hasByte Ascii.zero value).
Proof. reflexivity. Qed.

Lemma put_access_key (value : string) (env : gmap string string) :
  os.hasByte Ascii.zero value = false ->
  os.put "AWS_ACCESS_KEY_ID" value env = <["AWS_ACCESS_KEY_ID" := value]> env.
Proof.
  intros Hnul. apply put_settable. rewrite settable_access_key, Hnul. reflexivity.
Qed.

Lemma put_secret_key (value : string) (env : gmap string string) :
  os.hasByte Ascii.zero value = false ->
  os.put "AWS_SECRET_ACCESS_KEY" value env = <["AWS_SECRET_ACCESS_KEY" := value]> env.
Proof.
  intros Hnul. apply put_settable. rewrite settable_secret_key, Hnul. reflexivity.
Qed.

Section ResolverPaths.
Context `{Sdk}.


(** With a region and both halves of a secret reference, resolution is the
    secret branch: one lookup, then the two field checks, then [NewClient]
    on the fetched values. *)
Lemma GetAWSClient_secret_reference (kubeClient : kubeclientpkg.Client)
    (input : NewAwsClientInput) (p : Process) :
  AwsRegion input <> "" -> SecretName input <> "" -> NameSpace input <> "" ->
  GetAWSClient kubeClient input p =
    let key := {| types.Name := SecretName input;
                  types.Namespace := NameSpace input |} in
    let p1 := record (CallGet key) p in
    match kubeclientpkg.Get kubeClient key {| corev1.Data := ∅ |} with
    | (_, Some err) => (Err err, p1)
    | (secret, None) =>
        match corev1.Data secret !! awsCredsSecretIDKey with
        | None => (Err (fmt.Errorf ("AWS credentials secret " ++ SecretName input
++ " did not contain key " ++ awsCredsSecretIDKey)), p1)
        | Some accessKeyID =>
            match corev1.Data secret !! awsCredsSecretAccessKey with
            | None => (Err (fmt.Errorf ("AWS credentials secret " ++ SecretName input
++ " did not contain key " ++ awsCredsSecretAccessKey)), p1)
            | Some secretAccessKey =>
                NewClient (string_of_list_byte accessKeyID)
                          (string_of_list_byte secretAccessKey)
                          (AwsToken input) (AwsRegion input) p1
            end
        end
    end.
Proof.
  intros Hregion Hname Hns. unfold GetAWSClient.
  destruct (decide (AwsRegion input = "")) as [Heq | _]; [contradiction |].
  destruct (decide (SecretName input <> "" /\ NameSpace input <> "")) as [_ | Hno];
    [| exfalso; apply Hno; split; assumption].
  unfold bind, client_Get, ret. cbn.
  destruct (kubeclientpkg.Get kubeClient _ _) as [secret [err |]]; [reflexivity |].
  destruct (corev1.Data secret !! awsCredsSecretIDKey) as [accessKeyID |];
    [| reflexivity].
  destruct (corev1.Data secret !! awsCredsSecretAccessKey) as [secretAccessKey |];
    [| reflexivity].
  destruct (NewClient _ _ _ _ _) as [[c | err] p']; reflexivity.
Qed.

(** Without a complete secret reference, resolution is the inline branch. *)
Lemma GetAWSClient_inline (kubeClient : kubeclientpkg.Client)
    (input : NewAwsClientInput) (p : Process) :
  AwsRegion input <> "" -> ~ (SecretName input <> "" /\ NameSpace input <> "") ->
  GetAWSClient kubeClient input p =
    if decide (AwsCredsSecretIDKey input = "" /\ AwsCredsSecretAccessKey input <> "")
    then (Err (fmt.Errorf ("getAWSClient: NoAwsCredentials or Secret " ++ fmt_v input)), p)
    else NewClient (AwsCredsSecretIDKey input) (AwsCredsSecretAccessKey input)
                   (AwsToken input) (AwsRegion input) p.
Proof.
  intros Hregion Hno. unfold GetAWSClient.
  destruct (decide (AwsRegion input = "")) as [Heq | _]; [contradiction |].
  destruct (decide (SecretName input <> "" /\ NameSpace input <> "")) as [Hyes | _];
    [contradiction |].
  destruct (decide (_ /\ _)); [reflexivity |].
  apply bind_result_id.
Qed.

(** A process never equals itself with one more lookup. *)
Lemma lookups_fresh (p : Process) (c : Call) :
  lookups p <> (lookups p ++ [c])%list.
Proof.
  intros Heq. apply (f_equal (@List.length Call)) in Heq.
  rewrite List.length_app in Heq. cbn in Heq. lia.
Qed.

Lemma lookups_record_Get (p : Process) (key : types.NamespacedName) :
  lookups (record (CallGet key) p) = (lookups p ++ [CallGet key])%list.
Proof. unfold lookups, record. cbn. rewrite List.filter_app. reflexivity. Qed.
End ResolverPaths.

(** ** The claims *)

Section Claims.
Context `{Sdk}.


(** C1. When the region field is empty, [GetAWSClient] returns the error of
    line 139, the one the specification calls a ConfigurationError, and
    leaves the process as it found it: no lookup, no environment write and
    no session appear in the history.  Nothing is assumed about the
    Kubernetes client or about the other five fields. *)
Theorem GetAWSClient_no_region (kubeClient : kubeclientpkg.Client)
    (input : NewAwsClientInput) (p : Process) :
  AwsRegion input = "" ->
  GetAWSClient kubeClient input p
  = (Err (fmt.Errorf "getAWSClient:NoRegion: "), p).
Proof.
  intros Hregion. unfold GetAWSClient. rewrite Hregion.
  destruct (decide ("" = "")) as [_ | Hne]; [reflexivity | contradiction].
Qed.

(** C2. With a secret reference, [GetAWSClient] adds at most one lookup to
    the history.  When that lookup was issued and returned a record,
    a record without [aws_access_key_id] makes resolution fail with the
    error naming the secret and that field, a record with it but without
    [aws_secret_access_key] makes it fail naming the latter, and in both
    cases the lookup is the only call issued.  In particular a record that
    holds [aws_access_key_id] alone fails naming [aws_secret_access_key]. *)
Theorem GetAWSClient_secret_lookup (kubeClient : kubeclientpkg.Client)
    (input : NewAwsClientInput) (p : Process) :
  SecretName input <> "" -> NameSpace input <> "" ->
  length (lookups (GetAWSClient kubeClient input p).2) <= S (length (lookups p))
  /\ forall secret : corev1.Secret,
      lookups (GetAWSClient kubeClient input p).2
      = (lookups p ++ [CallGet {| types.Name := SecretName input;
                                  types.Namespace := NameSpace input |}])%list ->
      kubeclientpkg.Get kubeClient
        {| types.Name := SecretName input; types.Namespace := NameSpace input |}
        {| corev1.Data := ∅ |} = (secret, None) ->
      (corev1.Data secret !! awsCredsSecretIDKey = None ->
       GetAWSClient kubeClient input p
       = (Err (fmt.Errorf ("AWS credentials secret " ++ SecretName input
++ " did not contain key " ++ awsCredsSecretIDKey)),
          record (CallGet {| types.Name := SecretName input;
                             types.Namespace := NameSpace input |}) p))
      /\ (is_Some (corev1.Data secret !! awsCredsSecretIDKey) ->
          corev1.Data secret !! awsCredsSecretAccessKey = None ->
          GetAWSClient kubeClient input p
          = (Err (fmt.Errorf ("AWS credentials secret " ++ SecretName input
++ " did not contain key " ++ awsCredsSecretAccessKey)),
             record (CallGet {| types.Name := SecretName input;
                                types.Namespace := NameSpace input |}) p))
      /\ (forall v : list byte,
          corev1.Data secret = {[ awsCredsSecretIDKey := v ]} ->
          GetAWSClient kubeClient input p
          = (Err (fmt.Errorf ("AWS credentials secret " ++ SecretName input
++ " did not contain key " ++ "aws_secret_access_key")),
             record (CallGet {| types.Name := SecretName input;
                                types.Namespace := NameSpace input |}) p)).
Proof.
  intros Hname Hns.
  destruct (decide (AwsRegion input = "")) as [Hregion | Hregion].
  - rewrite (GetAWSClient_no_region _ _ _ Hregion). cbn. split; [lia |].
    intros secret Hfresh. exfalso. exact (lookups_fresh _ _ Hfresh).
  - rewrite (GetAWSClient_secret_reference _ _ _ Hregion Hname Hns). cbn zeta.
    split.
    + destruct (kubeclientpkg.Get kubeClient _ _) as [secret [err |]].
      { cbn [snd]. rewrite lookups_record_Get, List.length_app. cbn. lia. }
      destruct (corev1.Data secret !! awsCredsSecretIDKey);
        [destruct (corev1.Data secret !! awsCredsSecretAccessKey) |].
      * rewrite NewClient_lookups, lookups_record_Get, List.length_app. cbn. lia.
      * cbn [snd]. rewrite lookups_record_Get, List.length_app. cbn. lia.
      * cbn [snd]. rewrite lookups_record_Get, List.length_app. cbn. lia.
    + intros secret _ Hget. rewrite Hget. repeat split.
      * intros Hid. rewrite Hid. reflexivity.
      * intros [a Hid] Hkey. rewrite Hid, Hkey. reflexivity.
      * intros v Hdata. rewrite Hdata.
        rewrite lookup_singleton_eq.
        rewrite lookup_singleton_ne by discriminate. reflexivity.
Qed.

(** C3. For two configurations with the same non-empty region, the same
    complete secret reference and the same token, [GetAWSClient] returns
    the same result and leaves the same process state, whatever their
    inline access key and inline secret are. *)
Theorem GetAWSClient_secret_precedence (kubeClient : kubeclientpkg.Client)
    (input1 input2 : NewAwsClientInput) (p : Process) :
  AwsRegion input1 <> "" -> SecretName input1 <> "" -> NameSpace input1 <> "" ->
  AwsRegion input1 = AwsRegion input2 ->
  SecretName input1 = SecretName input2 ->
  NameSpace input1 = NameSpace input2 ->
  AwsToken input1 = AwsToken input2 ->
  GetAWSClient kubeClient input1 p = GetAWSClient kubeClient input2 p.
Proof.
  intros Hregion Hname Hns Eregion Ename Ens Etoken.
  rewrite (GetAWSClient_secret_reference _ input1) by assumption.
  rewrite (GetAWSClient_secret_reference _ input2) by congruence.
  rewrite Eregion, Ename, Ens, Etoken. reflexivity.
Qed.

(** C4. With a region, no complete secret reference, an empty inline access
    key and a non-empty inline secret, [GetAWSClient] returns the error of
    line 172, a ConfigurationError in the specification's words, and
    leaves the process as it found it: no lookup, no environment write, no
    session. *)
Theorem GetAWSClient_secret_without_id (kubeClient : kubeclientpkg.Client)
    (input : NewAwsClientInput) (p : Process) :
  AwsRegion input <> "" ->
  ~ (SecretName input <> "" /\ NameSpace input <> "") ->
  AwsCredsSecretIDKey input = "" -> AwsCredsSecretAccessKey input <> "" ->
  GetAWSClient kubeClient input p
  = (Err (fmt.Errorf ("getAWSClient: NoAwsCredentials or Secret " ++ fmt_v input)), p).
Proof.
  intros Hregion Hno Hid Hkey.
  rewrite (GetAWSClient_inline _ _ _ Hregion Hno).
  destruct (decide (_ /\ _)) as [_ | Hnot]; [reflexivity |].
  exfalso. apply Hnot. split; assumption.
Qed.

(** C5, as the code has it.  [NewClient] with an empty token calls
    [os.Setenv] for [AWS_ACCESS_KEY_ID] with the access key and for
    [AWS_SECRET_ACCESS_KEY] with the secret, then opens the session from a
    configuration without credentials; each of the two values that holds no
    NUL byte is then the value of its variable in the process environment.
    With a non-empty token it opens the session from a configuration holding
    the static credentials made of key, secret and token, and the
    environment is the one it started from. *)
Theorem NewClient_credentials (accessID accessSecret token region : string)
    (p : Process) :
  (token = "" ->
   (os.hasByte Ascii.zero accessID = false ->
    environ (NewClient accessID accessSecret token region p).2
      !! "AWS_ACCESS_KEY_ID" = Some accessID)
   /\ (os.hasByte Ascii.zero accessSecret = false ->
       environ (NewClient accessID accessSecret token region p).2
         !! "AWS_SECRET_ACCESS_KEY" = Some accessSecret)
   /\ (os.hasByte Ascii.zero accessID = false ->
       os.hasByte Ascii.zero accessSecret = false ->
       environ (NewClient accessID accessSecret token region p).2
       = <["AWS_SECRET_ACCESS_KEY" := accessSecret]>
           (<["AWS_ACCESS_KEY_ID" := accessID]> (environ p)))
   /\ history (NewClient accessID accessSecret token region p).2
      = (history p ++
         [CallSetenv "AWS_ACCESS_KEY_ID" accessID;
          CallSetenv "AWS_SECRET_ACCESS_KEY" accessSecret;
          CallNewSession {| aws.Region := region; aws.Credentials := None |}])%list)
  /\ (token <> "" ->
      environ (NewClient accessID accessSecret token region p).2 = environ p
      /\ history (NewClient accessID accessSecret token region p).2
         = (history p ++
            [CallNewSession
               {| aws.Region := region;
                  aws.Credentials :=
                    Some (credentials.NewStaticCredentials
                            accessID accessSecret token) |}])%list).
Proof.
  split.
  - intros ->. rewrite NewClient_empty_token. cbn [snd environ history].
    repeat split.
    + intros Hid. rewrite put_lookup_ne by discriminate.
      rewrite put_access_key by assumption. apply lookup_insert_eq.
    + intros Hkey. rewrite put_secret_key by assumption. apply lookup_insert_eq.
    + intros Hid Hkey. rewrite put_access_key, put_secret_key by assumption.
      reflexivity.
  - intros Htoken. rewrite NewClient_with_token by assumption.
    split; reflexivity.
Qed.
End Claims.

Section FacadeClaims.
Context `{SdkTypes}.

(** C6. Every facade method is the SDK method of the same operation on the
    client of its service: for every facade and every input, it performs
    on the remote state exactly what that one SDK call performs, and
    returns the output and the error of that call as they are. *)
Theorem facade_passthrough (c : AwsClient) :
  (forall i r, ApplySecurityGroupsToLoadBalancer c i r
               = elbClient c elb.ApplySecurityGroupsToLoadBalancer i r)
  /\ (forall i r, ConfigureHealthCheck c i r
                  = elbClient c elb.ConfigureHealthCheck i r)
  /\ (forall i r, CreateLoadBalancer c i r
                  = elbClient c elb.CreateLoadBalancer i r)
  /\ (forall i r, CreateLoadBalancerListeners c i r
                  = elbClient c elb.CreateLoadBalancerListeners i r)
  /\ (forall i r, DeleteLoadBalancerListeners c i r
                  = elbClient c elb.DeleteLoadBalancerListeners i r)
  /\ (forall i r, DeregisterInstancesFromLoadBalancer c i r
                  = elbClient c elb.DeregisterInstancesFromLoadBalancer i r)
  /\ (forall i r, DescribeLoadBalancers c i r
                  = elbClient c elb.DescribeLoadBalancers i r)
  /\ (forall i r, DescribeLoadBalancersV2 c i r
                  = elbv2Client c elbv2.DescribeLoadBalancers i r)
  /\ (forall i r, DeleteLoadBalancerV2 c i r
                  = elbv2Client c elbv2.DeleteLoadBalancer i r)
  /\ (forall i r, CreateLoadBalancerV2 c i r
                  = elbv2Client c elbv2.CreateLoadBalancer i r)
  /\ (forall i r, CreateTargetGroupV2 c i r
                  = elbv2Client c elbv2.CreateTargetGroup i r)
  /\ (forall i r, RegisterTargetsV2 c i r
                  = elbv2Client c elbv2.RegisterTargets i r)
  /\ (forall i r, CreateListenerV2 c i r
                  = elbv2Client c elbv2.CreateListener i r)
  /\ (forall i r, DescribeTags c i r
                  = elbClient c elb.DescribeTags i r)
  /\ (forall i r, RegisterInstancesWithLoadBalancer c i r
                  = elbClient c elb.RegisterInstancesWithLoadBalancer i r)
  /\ (forall i r, DescribeTargetGroupsV2 c i r
                  = elbv2Client c elbv2.DescribeTargetGroups i r)
  /\ (forall i r, AddTagsV2 c i r
                  = elbv2Client c elbv2.AddTags i r)
  /\ (forall i r, ChangeResourceRecordSets c i r
                  = route53Client c route53.ChangeResourceRecordSets i r)
  /\ (forall i r, ListHostedZonesByName c i r
                  = route53Client c route53.ListHostedZonesByName i r)
  /\ (forall i r, AuthorizeSecurityGroupIngress c i r
                  = ec2Client c ec2.AuthorizeSecurityGroupIngress i r)
  /\ (forall i r, CreateSecurityGroup c i r
                  = ec2Client c ec2.CreateSecurityGroup i r)
  /\ (forall i r, DeleteSecurityGroup c i r
                  = ec2Client c ec2.DeleteSecurityGroup i r)
  /\ (forall i r, DescribeSecurityGroups c i r
                  = ec2Client c ec2.DescribeSecurityGroups i r)
  /\ (forall i r, RevokeSecurityGroupIngress c i r
                  = ec2Client c ec2.RevokeSecurityGroupIngress i r)
  /\ (forall i r, DescribeSubnets c i r
                  = ec2Client c ec2.DescribeSubnets i r)
  /\ (forall i r, CreateTags c i r
                  = ec2Client c ec2.CreateTags i r).
Proof.
  repeat (split; [intros i r; reflexivity |]). intros i r; reflexivity.
Qed.
End FacadeClaims.

Section SecretFieldClaims.
Context `{Sdk}.

(** C7, as the code has it.  On the secret-reference path the two fields
    whose absence from the fetched record makes resolution fail are
    [aws_access_key_id] and [aws_secret_access_key]: without the first the
    error names the first, with the first and without the second it names
    the second, and with both no field check fails, whatever other fields
    the record has or lacks. *)
Theorem GetAWSClient_required_fields (kubeClient : kubeclientpkg.Client)
    (input : NewAwsClientInput) (p : Process) (secret : corev1.Secret) :
  AwsRegion input <> "" -> SecretName input <> "" -> NameSpace input <> "" ->
  kubeclientpkg.Get kubeClient
    {| types.Name := SecretName input; types.Namespace := NameSpace input |}
    {| corev1.Data := ∅ |} = (secret, None) ->
  (corev1.Data secret !! "aws_access_key_id" = None ->
   GetAWSClient kubeClient input p
   = (Err (fmt.Errorf ("AWS credentials secret " ++ SecretName input
                       ++ " did not contain key " ++ "aws_access_key_id")),
      record (CallGet {| types.Name := SecretName input;
                         types.Namespace := NameSpace input |}) p))
  /\ (forall accessKeyID,
      corev1.Data secret !! "aws_access_key_id" = Some accessKeyID ->
      corev1.Data secret !! "aws_secret_access_key" = None ->
      GetAWSClient kubeClient input p
      = (Err (fmt.Errorf ("AWS credentials secret " ++ SecretName input
                          ++ " did not contain key " ++ "aws_secret_access_key")),
         record (CallGet {| types.Name := SecretName input;
                            types.Namespace := NameSpace input |}) p))
  /\ (forall accessKeyID secretAccessKey,
      corev1.Data secret !! "aws_access_key_id" = Some accessKeyID ->
      corev1.Data secret !! "aws_secret_access_key" = Some secretAccessKey ->
      GetAWSClient kubeClient input p
      = NewClient (string_of_list_byte accessKeyID)
                  (string_of_list_byte secretAccessKey)
                  (AwsToken input) (AwsRegion input)
                  (record (CallGet {| types.Name := SecretName input;
                                      types.Namespace := NameSpace input |}) p)).
Proof.
  intros Hregion Hname Hns Hget.
  rewrite (GetAWSClient_secret_reference _ _ _ Hregion Hname Hns). cbn zeta.
  rewrite Hget. unfold awsCredsSecretIDKey, awsCredsSecretAccessKey.
  repeat split.
  - intros Hid. rewrite Hid. reflexivity.
  - intros a Hid Hkey. rewrite Hid, Hkey. reflexivity.
  - intros a s Hid Hkey. rewrite Hid, Hkey. reflexivity.
Qed.


(** C10. The field check is on presence, not on content: when the fetched
    record maps both [aws_access_key_id] and [aws_secret_access_key] to the
    empty byte string, neither missing-field error is returned and
    resolution is [NewClient] on an empty access key and an empty secret,
    run after the lookup. *)
Theorem GetAWSClient_empty_values (kubeClient : kubeclientpkg.Client)
    (input : NewAwsClientInput) (p : Process) (secret : corev1.Secret) :
  AwsRegion input <> "" -> SecretName input <> "" -> NameSpace input <> "" ->
  kubeclientpkg.Get kubeClient
    {| types.Name := SecretName input; types.Namespace := NameSpace input |}
    {| corev1.Data := ∅ |} = (secret, None) ->
  corev1.Data secret !! "aws_access_key_id" = Some [] ->
  corev1.Data secret !! "aws_secret_access_key" = Some [] ->
  GetAWSClient kubeClient input p
  = NewClient "" "" (AwsToken input) (AwsRegion input)
      (record (CallGet {| types.Name := SecretName input;
                          types.Namespace := NameSpace input |}) p).
Proof.
  intros Hregion Hname Hns Hget Hid Hkey.
  rewrite (GetAWSClient_secret_reference _ _ _ Hregion Hname Hns). cbn zeta.
  rewrite Hget. unfold awsCredsSecretIDKey, awsCredsSecretAccessKey.
  rewrite Hid, Hkey. reflexivity.
Qed.
End SecretFieldClaims.

Section HelperClaims.
Context `{SdkTypes} {AWSLoadBalancer DescribeIn DescribeOut : Type}.
Variable describe : AwsClient -> Request DescribeIn DescribeOut.
Variable describeInput : string -> DescribeIn.
Variable descriptions : option DescribeOut -> list AWSLoadBalancer.
Variable notFoundCode : string.
Variable emptyAnswer : bool * option AWSLoadBalancer * option error.

(** C8. Let the describe call issued by [DoesELBExist] return [output] and
    [err].  When [err] carries the not-found code the helper returns
    [(false, nil, nil)]; any other error comes back as the error of the
    helper; and without error, a result whose first descriptor is [d]
    gives [(true, d, nil)]. *)
Theorem DoesELBExist_outcomes (c : AwsClient) (elbName : string) (r r' : Remote)
    (output : option DescribeOut) (err : option error) :
  describe c (describeInput elbName) r = ((output, err), r') ->
  (forall message,
      err = Some (awserrError notFoundCode message) ->
      DoesELBExist describe describeInput descriptions notFoundCode emptyAnswer
        c elbName r = ((false, None, None), r'))
  /\ (forall e,
      err = Some e -> (forall message, e <> awserrError notFoundCode message) ->
      (DoesELBExist describe describeInput descriptions notFoundCode emptyAnswer
         c elbName r).1.2 = Some e)
  /\ (forall d ds,
      err = None -> descriptions output = d :: ds ->
      DoesELBExist describe describeInput descriptions notFoundCode emptyAnswer
        c elbName r = ((true, Some d, None), r')).
Proof.
  intros Hcall. unfold DoesELBExist. rewrite Hcall. repeat split.
  - intros message ->. destruct (decide (notFoundCode = notFoundCode));
      [reflexivity | contradiction].
  - intros e -> Hother. destruct e as [msg | code message]; [reflexivity |].
    destruct (decide (code = notFoundCode)) as [-> | _]; [| reflexivity].
    exfalso. exact (Hother message eq_refl).
  - intros d ds -> Hd. rewrite Hd. reflexivity.
Qed.
End HelperClaims.

(** ** The claims on concrete inputs *)

(** C7, as the specification words it, fails.  A record holding
    [aws_access_key_id] and [aws_secret_access_key] has neither
    [access_key_id] nor [secret_access_key], yet resolution succeeds on it;
    and a record holding [access_key_id] and [secret_access_key] fails
    resolution, with an error that names [aws_access_key_id]. *)
Lemma unprefixed_field_names_counterexample :
  (secretWithAwsKeys !! "access_key_id" = None
   /\ secretWithAwsKeys !! "secret_access_key" = None
   /\ (@GetAWSClient fake.types fake.sdk (fake.kube secretWithAwsKeys)
         inputWithSecret fake.process).1
      = Ok fake.client)
  /\ (is_Some (secretWithUnprefixedKeys !! "access_key_id")
      /\ is_Some (secretWithUnprefixedKeys !! "secret_access_key")
      /\ (@GetAWSClient fake.types fake.sdk (fake.kube secretWithUnprefixedKeys)
            inputWithSecret fake.process).1
         = Err (errorString
                  "AWS credentials secret x did not contain key aws_access_key_id")).
Proof.
  repeat split; try reflexivity; eexists; reflexivity.
Qed.

(** C5, as the specification words it, fails on an access key that holds a
    NUL byte: [os.Setenv] is called with it and refuses it, [NewClient]
    goes on, and [AWS_ACCESS_KEY_ID] is left unset, or keeps the ambient
    value it had, while the secret is written. *)
Lemma NewClient_nul_counterexample :
  history (@NewClient fake.types fake.sdk accessIDWithNul "hunter2" ""
             "us-east-1" fake.process).2
  = [CallSetenv "AWS_ACCESS_KEY_ID" accessIDWithNul;
     CallSetenv "AWS_SECRET_ACCESS_KEY" "hunter2";
     CallNewSession {| aws.Region := "us-east-1"; aws.Credentials := None |}]
  /\ environ (@NewClient fake.types fake.sdk accessIDWithNul "hunter2" ""
                "us-east-1" fake.process).2 !! "AWS_ACCESS_KEY_ID" = None
  /\ environ (@NewClient fake.types fake.sdk accessIDWithNul "hunter2" ""
                "us-east-1" processWithAmbient).2 !! "AWS_ACCESS_KEY_ID"
     = Some "ambient-id"
  /\ environ (@NewClient fake.types fake.sdk accessIDWithNul "hunter2" ""
                "us-east-1" processWithAmbient).2 !! "AWS_SECRET_ACCESS_KEY"
     = Some "hunter2".
Proof. repeat split. Qed.

Lemma GetAWSClient_no_region_witness :
  AwsRegion inputWithoutRegion = ""
  /\ @GetAWSClient fake.types fake.sdk (fake.kube secretWithAwsKeys)
       inputWithoutRegion fake.process
     = (Err (errorString "getAWSClient:NoRegion: "), fake.process).
Proof.
  split; [reflexivity |].
  apply (@GetAWSClient_no_region fake.types fake.sdk). reflexivity.
Defined.

Lemma GetAWSClient_secret_lookup_witness :
  @GetAWSClient fake.types fake.sdk (fake.kube secretWithIDOnly)
    inputWithSecret fake.process
  = (Err (errorString
            "AWS credentials secret x did not contain key aws_secret_access_key"),
     {| environ := ∅;
        history := [CallGet {| types.Name := "x"; types.Namespace := "y" |}] |}).
Proof.
  destruct (@GetAWSClient_secret_lookup fake.types fake.sdk
              (fake.kube secretWithIDOnly) inputWithSecret fake.process)
    as [_ Hrecord]; [discriminate | discriminate |].
  destruct (Hrecord {| corev1.Data := secretWithIDOnly |})
    as (_ & _ & Honly); [reflexivity | reflexivity |].
  exact (Honly (list_byte_of_string "AKIA") eq_refl).
Defined.

Lemma GetAWSClient_secret_precedence_witness :
  AwsCredsSecretIDKey inputWithSecret <> AwsCredsSecretIDKey inputWithSecretAndInline
  /\ AwsCredsSecretAccessKey inputWithSecret
     <> AwsCredsSecretAccessKey inputWithSecretAndInline
  /\ @GetAWSClient fake.types fake.sdk (fake.kube secretWithAwsKeys)
       inputWithSecret fake.process
     = @GetAWSClient fake.types fake.sdk (fake.kube secretWithAwsKeys)
         inputWithSecretAndInline fake.process.
Proof.
  split; [discriminate |]. split; [discriminate |].
  apply (@GetAWSClient_secret_precedence fake.types fake.sdk);
    first [discriminate | reflexivity].
Defined.

Lemma GetAWSClient_secret_without_id_witness :
  @GetAWSClient fake.types fake.sdk (fake.kube secretWithAwsKeys)
    inputSecretOnly fake.process
  = (Err (errorString
            "getAWSClient: NoAwsCredentials or Secret { inline-secret  us-east-1  }"),
     fake.process).
Proof.
  apply (@GetAWSClient_secret_without_id fake.types fake.sdk).
  - discriminate.
  - intros [Hname _]. apply Hname. reflexivity.
  - reflexivity.
  - discriminate.
Defined.

Lemma NewClient_credentials_witness :
  (@NewClient fake.types fake.sdk "AKIA" "hunter2" "" "us-east-1" fake.process).2
  = {| environ := <["AWS_SECRET_ACCESS_KEY" := "hunter2"]>
                    (<["AWS_ACCESS_KEY_ID" := "AKIA"]> ∅);
       history := [CallSetenv "AWS_ACCESS_KEY_ID" "AKIA";
                   CallSetenv "AWS_SECRET_ACCESS_KEY" "hunter2";
                   CallNewSession {| aws.Region := "us-east-1";
                                     aws.Credentials := None |}] |}
  /\ (@NewClient fake.types fake.sdk "AKIA" "hunter2" "token" "us-east-1"
        fake.process).2
     = {| environ := ∅;
          history := [CallNewSession
                        {| aws.Region := "us-east-1";
                           aws.Credentials :=
                             Some (credentials.NewStaticCredentials
                                     "AKIA" "hunter2" "token") |}] |}.
Proof.
  destruct (@NewClient_credentials fake.types fake.sdk
              "AKIA" "hunter2" "" "us-east-1" fake.process) as [Hempty _].
  destruct (@NewClient_credentials fake.types fake.sdk
              "AKIA" "hunter2" "token" "us-east-1" fake.process) as [_ Htoken].
  destruct (Hempty eq_refl) as (_ & _ & Henv & Hhist).
  specialize (Henv eq_refl eq_refl).
  destruct Htoken as [Henv' Hhist']; [discriminate |].
  split.
  - destruct (@NewClient fake.types fake.sdk "AKIA" "hunter2" "" "us-east-1"
                fake.process).2 as [env hist].
    cbn in Henv, Hhist. rewrite Henv, Hhist. reflexivity.
  - destruct (@NewClient fake.types fake.sdk "AKIA" "hunter2" "token" "us-east-1"
                fake.process).2 as [env hist].
    cbn in Henv', Hhist'. rewrite Henv', Hhist'. reflexivity.
Defined.

Lemma facade_passthrough_witness :
  @DescribeLoadBalancersV2 fake.types fake.client "my-nlb" []
  = ((Some "my-nlb", None), ["elbv2"])
  /\ @DescribeLoadBalancersV2 fake.types fake.client "" []
     = ((None, Some (awserrError "ValidationError" "elbv2")), ["elbv2"]).
Proof.
  destruct (@facade_passthrough fake.types fake.client)
    as (_ & _ & _ & _ & _ & _ & _ & Hdescribe & _).
  split; rewrite Hdescribe; reflexivity.
Defined.

Lemma GetAWSClient_required_fields_witness :
  @GetAWSClient fake.types fake.sdk (fake.kube secretWithUnprefixedKeys)
    inputWithSecret fake.process
  = (Err (errorString
            "AWS credentials secret x did not contain key aws_access_key_id"),
     {| environ := ∅;
        history := [CallGet {| types.Name := "x"; types.Namespace := "y" |}] |}).
Proof.
  destruct (@GetAWSClient_required_fields fake.types fake.sdk
              (fake.kube secretWithUnprefixedKeys) inputWithSecret fake.process
              {| corev1.Data := secretWithUnprefixedKeys |})
    as (Hid & _ & _); [discriminate | discriminate | discriminate | reflexivity |].
  apply Hid. reflexivity.
Defined.

Lemma DoesELBExist_outcomes_witness :
  @DoesELBExist fake.types string string string
    fake.describe (fun name => name) fake.descriptions "LoadBalancerNotFound"
    (false, None, None) fake.client "gone" []
  = ((false, None, None), ["elb"])
  /\ @DoesELBExist fake.types string string string
       fake.describe (fun name => name) fake.descriptions "LoadBalancerNotFound"
       (false, None, None) fake.client "api-ext" []
     = ((true, Some "api-ext", None), ["elb"]).
Proof.
  split.
  - destruct (@DoesELBExist_outcomes fake.types string string string
                fake.describe (fun name => name) fake.descriptions
                "LoadBalancerNotFound" (false, None, None) fake.client "gone"
                [] ["elb"] None (Some (awserrError "LoadBalancerNotFound" "gone")))
      as (Hgone & _ & _); [reflexivity |].
    exact (Hgone "gone" eq_refl).
  - destruct (@DoesELBExist_outcomes fake.types string string string
                fake.describe (fun name => name) fake.descriptions
                "LoadBalancerNotFound" (false, None, None) fake.client "api-ext"
                [] ["elb"] (Some "api-ext") None)
      as (_ & _ & Hfound); [reflexivity |].
    exact (Hfound "api-ext" [] eq_refl eq_refl).
Defined.


Lemma GetAWSClient_empty_values_witness :
  @GetAWSClient fake.types fake.sdk (fake.kube secretWithEmptyValues)
    inputWithSecret fake.process
  = @NewClient fake.types fake.sdk "" "" "" "us-east-1"
      {| environ := ∅;
         history := [CallGet {| types.Name := "x"; types.Namespace := "y" |}] |}.
Proof.
  apply (@GetAWSClient_empty_values fake.types fake.sdk
           (fake.kube secretWithEmptyValues) inputWithSecret fake.process
           {| corev1.Data := secretWithEmptyValues |});
    first [discriminate | reflexivity].
Defined.

(** On a record with two empty values the session is opened, after the
    environment has been set to the two empty strings. *)
Example GetAWSClient_empty_values_history :
  history (@GetAWSClient fake.types fake.sdk (fake.kube secretWithEmptyValues)
             inputWithSecret fake.process).2
  = [CallGet {| types.Name := "x"; types.Namespace := "y" |};
     CallSetenv "AWS_ACCESS_KEY_ID" "";
     CallSetenv "AWS_SECRET_ACCESS_KEY" "";
     CallNewSession {| aws.Region := "us-east-1"; aws.Credentials := None |}].
Proof. reflexivity. Qed.

(** ** Further properties of the resolver *)

Section ResolverEnvironment.
Context `{Sdk}.

(** The environment [NewClient] leaves behind. *)
Lemma NewClient_environ (accessID accessSecret token region : string) (p : Process) :
  environ (NewClient accessID accessSecret token region p).2
  = if decide (token = "")
    then os.put "AWS_SECRET_ACCESS_KEY" accessSecret
           (os.put "AWS_ACCESS_KEY_ID" accessID (environ p))
    else environ p.
Proof.
  destruct (decide (token = "")) as [-> | Htoken].
  - rewrite NewClient_empty_token. reflexivity.
  - rewrite NewClient_with_token by assumption. reflexivity.
Qed.

(** The environment [GetAWSClient] leaves behind: the one it found, or that
    one after the two calls of [os.Setenv], which needs an empty token. *)
Lemma GetAWSClient_environ (kubeClient : kubeclientpkg.Client)
    (input : NewAwsClientInput) (p : Process) :
  environ (GetAWSClient kubeClient input p).2 = environ p
  \/ (AwsToken input = ""
      /\ exists accessID accessSecret,
          environ (GetAWSClient kubeClient input p).2
          = os.put "AWS_SECRET_ACCESS_KEY" accessSecret
              (os.put "AWS_ACCESS_KEY_ID" accessID (environ p))).
Proof.
  assert (Hnew : forall accessID accessSecret q,
             environ q = environ p ->
             environ (NewClient accessID accessSecret (AwsToken input)
                        (AwsRegion input) q).2 = environ p
             \/ (AwsToken input = ""
                 /\ exists a s,
                     environ (NewClient accessID accessSecret (AwsToken input)
                                (AwsRegion input) q).2
                     = os.put "AWS_SECRET_ACCESS_KEY" s
                         (os.put "AWS_ACCESS_KEY_ID" a (environ p)))).
  { intros accessID accessSecret q Hq. rewrite NewClient_environ, Hq.
    destruct (decide (AwsToken input = "")) as [Htoken | _]; [right | left; reflexivity].
    split; [assumption |]. exists accessID, accessSecret. reflexivity. }
  destruct (decide (AwsRegion input = "")) as [Hregion | Hregion].
  { left. unfold GetAWSClient.
    destruct (decide (AwsRegion input = "")); [reflexivity | contradiction]. }
  destruct (decide (SecretName input <> "" /\ NameSpace input <> "")) as [[Hname Hns] | Hno].
  - rewrite (GetAWSClient_secret_reference _ _ _ Hregion Hname Hns). cbn zeta.
    destruct (kubeclientpkg.Get kubeClient _ _) as [secret [err |]];
      [left; reflexivity |].
    destruct (corev1.Data secret !! awsCredsSecretIDKey); [| left; reflexivity].
    destruct (corev1.Data secret !! awsCredsSecretAccessKey); [| left; reflexivity].
    apply Hnew. reflexivity.
  - rewrite (GetAWSClient_inline _ _ _ Hregion Hno).
    destruct (decide (_ /\ _)); [left; reflexivity |].
    apply Hnew. reflexivity.
Qed.

(** X1. When the lookup of the referenced secret fails, [GetAWSClient]
    returns the error of the Kubernetes client as it is, and the lookup is
    the only call issued: the environment is not written and no session is
    opened. *)
Theorem GetAWSClient_lookup_failure (kubeClient : kubeclientpkg.Client)
    (input : NewAwsClientInput) (p : Process) (secret : corev1.Secret) (err : error) :
  AwsRegion input <> "" -> SecretName input <> "" -> NameSpace input <> "" ->
  kubeclientpkg.Get kubeClient
    {| types.Name := SecretName input; types.Namespace := NameSpace input |}
    {| corev1.Data := ∅ |} = (secret, Some err) ->
  GetAWSClient kubeClient input p
  = (Err err,
     record (CallGet {| types.Name := SecretName input;
                        types.Namespace := NameSpace input |}) p).
Proof.
  intros Hregion Hname Hns Hget.
  rewrite (GetAWSClient_secret_reference _ _ _ Hregion Hname Hns). cbn zeta.
  rewrite Hget. reflexivity.
Qed.

(** X2. When [NewClient] with an empty token, on a key and a secret that
    hold no NUL byte, fails, the error is the one [session.NewSession]
    returned for the configuration without credentials, and the two
    credential variables are set in the environment all the same: the write
    is not undone on failure. *)
Theorem NewClient_failure_keeps_environment
    (accessID accessSecret region : string) (p : Process) (err : error) :
  os.hasByte Ascii.zero accessID = false ->
  os.hasByte Ascii.zero accessSecret = false ->
  (NewClient accessID accessSecret "" region p).1 = Err err ->
  session_NewSession {| aws.Region := region; aws.Credentials := None |}
    (<["AWS_SECRET_ACCESS_KEY" := accessSecret]>
       (<["AWS_ACCESS_KEY_ID" := accessID]> (environ p))) = Err err
  /\ environ (NewClient accessID accessSecret "" region p).2
       !! "AWS_ACCESS_KEY_ID" = Some accessID
  /\ environ (NewClient accessID accessSecret "" region p).2
       !! "AWS_SECRET_ACCESS_KEY" = Some accessSecret.
Proof.
  intros Hid Hkey. rewrite NewClient_empty_token. cbn zeta.
  rewrite (put_access_key _ _ Hid), (put_secret_key _ _ Hkey).
  cbn [fst snd environ]. intros Hfail. repeat split.
  - destruct (session_NewSession _ _) as [s | e]; [discriminate | congruence].
  - rewrite lookup_insert_ne by discriminate. apply lookup_insert_eq.
  - apply lookup_insert_eq.
Qed.

(** X3. [GetAWSClient] never changes an environment variable other than
    [AWS_ACCESS_KEY_ID] and [AWS_SECRET_ACCESS_KEY], on any path and for any
    Kubernetes client. *)
Theorem GetAWSClient_environment_frame (kubeClient : kubeclientpkg.Client)
    (input : NewAwsClientInput) (p : Process) (name : string) :
  name <> "AWS_ACCESS_KEY_ID" -> name <> "AWS_SECRET_ACCESS_KEY" ->
  environ (GetAWSClient kubeClient input p).2 !! name = environ p !! name.
Proof.
  intros Hid Hkey.
  destruct (GetAWSClient_environ kubeClient input p) as [-> | (_ & a & s & ->)];
    [reflexivity |].
  rewrite !put_lookup_ne by assumption. reflexivity.
Qed.

(** X4. With a non-empty token, [GetAWSClient] leaves the whole environment
    as it found it, whichever branch it takes and whether it succeeds or
    not. *)
Theorem GetAWSClient_token_keeps_environment (kubeClient : kubeclientpkg.Client)
    (input : NewAwsClientInput) (p : Process) :
  AwsToken input <> "" ->
  environ (GetAWSClient kubeClient input p).2 = environ p.
Proof.
  intros Htoken.
  destruct (GetAWSClient_environ kubeClient input p) as [Heq | [Hempty _]];
    [exact Heq | contradiction].
Qed.

(** X5. The environment belongs to the process, not to the client: after two
    calls of [NewClient] without token, the second on a key and a secret
    that hold no NUL byte, the environment is the one the second call alone
    would have produced, so the values the first call wrote are gone from
    it. *)
Theorem NewClient_last_call_wins
    (accessID1 accessSecret1 region1 accessID2 accessSecret2 region2 : string)
    (p : Process) :
  os.hasByte Ascii.zero accessID2 = false ->
  os.hasByte Ascii.zero accessSecret2 = false ->
  environ (NewClient accessID2 accessSecret2 "" region2
             (NewClient accessID1 accessSecret1 "" region1 p).2).2
  = environ (NewClient accessID2 accessSecret2 "" region2 p).2
  /\ environ (NewClient accessID2 accessSecret2 "" region2
                (NewClient accessID1 accessSecret1 "" region1 p).2).2
       !! "AWS_ACCESS_KEY_ID" = Some accessID2
  /\ environ (NewClient accessID2 accessSecret2 "" region2
                (NewClient accessID1 accessSecret1 "" region1 p).2).2
       !! "AWS_SECRET_ACCESS_KEY" = Some accessSecret2.
Proof.
  intros Hid Hkey. rewrite !NewClient_environ.
  destruct (decide ("" = "")) as [_ | Hne]; [| contradiction].
  rewrite !(put_access_key _ _ Hid), !(put_secret_key _ _ Hkey).
  repeat split.
  - apply map_eq. intros name. rewrite !lookup_insert.
    repeat case_decide; try reflexivity; rewrite !put_lookup_ne by congruence;
      reflexivity.
  - rewrite lookup_insert_ne by discriminate. apply lookup_insert_eq.
  - apply lookup_insert_eq.
Qed.
End ResolverEnvironment.

Section ResolverOutcomes.
Context `{Sdk}.

(** A successful [NewClient] has opened a session as its last call. *)
Lemma NewClient_success (accessID accessSecret token region : string)
    (p p' : Process) (c : AwsClient) :
  NewClient accessID accessSecret token region p = (Ok c, p') ->
  exists cfg s calls,
    aws.Region cfg = region
    /\ session_NewSession cfg (environ p') = Ok s
    /\ history p' = (calls ++ [CallNewSession cfg])%list
    /\ c = {| ec2Client := ec2_New s; elbClient := elb_New s;
              elbv2Client := elbv2_New s; route53Client := route53_New s |}.
Proof.
  destruct (decide (token = "")) as [-> | Htoken].
  - rewrite NewClient_empty_token. cbn zeta.
    destruct (session_NewSession _ _) as [s | e] eqn:Hs; [| discriminate].
    intros Heq. injection Heq as <- <-. cbn.
    eexists _, s, (history p ++ [_; _])%list. rewrite Hs.
    repeat split. rewrite <- app_assoc. reflexivity.
  - rewrite NewClient_with_token by assumption. cbn zeta.
    destruct (session_NewSession _ _) as [s | e] eqn:Hs; [| discriminate].
    intros Heq. injection Heq as <- <-. cbn.
    eexists _, s, (history p). rewrite Hs. repeat split.
Qed.

(** A failed [NewClient] returns the error of [session.NewSession]. *)
Lemma NewClient_failure (accessID accessSecret token region : string)
    (p p' : Process) (err : error) :
  NewClient accessID accessSecret token region p = (Err err, p') ->
  exists cfg, aws.Region cfg = region
              /\ session_NewSession cfg (environ p') = Err err.
Proof.
  destruct (decide (token = "")) as [-> | Htoken].
  - rewrite NewClient_empty_token. cbn zeta.
    destruct (session_NewSession _ _) as [s | e] eqn:Hs; [discriminate |].
    intros Heq. injection Heq as <- <-. cbn. eexists. split; [| exact Hs]. reflexivity.
  - rewrite NewClient_with_token by assumption. cbn zeta.
    destruct (session_NewSession _ _) as [s | e] eqn:Hs; [discriminate |].
    intros Heq. injection Heq as <- <-. cbn. eexists. split; [| exact Hs]. reflexivity.
Qed.

(** X6. The error of line 172 prints the whole input with [%v], so its
    message contains the inline secret access key in clear. *)
Theorem GetAWSClient_error_shows_secret (kubeClient : kubeclientpkg.Client)
    (input : NewAwsClientInput) (p : Process) :
  AwsRegion input <> "" ->
  ~ (SecretName input <> "" /\ NameSpace input <> "") ->
  AwsCredsSecretIDKey input = "" -> AwsCredsSecretAccessKey input <> "" ->
  exists before after : string,
    GetAWSClient kubeClient input p
    = (Err (errorString (before ++ AwsCredsSecretAccessKey input ++ after)), p).
Proof.
  intros Hregion Hno Hid Hkey.
  rewrite (GetAWSClient_inline _ _ _ Hregion Hno).
  destruct (decide (_ /\ _)) as [_ | Hnot];
    [| exfalso; apply Hnot; split; assumption].
  exists "getAWSClient: NoAwsCredentials or Secret { ".
  exists (" " ++ AwsToken input ++ " " ++ AwsRegion input
          ++ " " ++ SecretName input ++ " " ++ NameSpace input ++ "}").
  unfold fmt.Errorf, fmt_v. rewrite Hid. reflexivity.
Qed.

(** X7. [GetAWSClient] succeeds only through a session: when it returns a
    client, its last call opened a session for the region of the input,
    that session was opened against the environment the process is left
    with, and the four service clients of the result are all built from
    that one session. *)
Theorem GetAWSClient_success_session (kubeClient : kubeclientpkg.Client)
    (input : NewAwsClientInput) (p p' : Process) (c : AwsClient) :
  GetAWSClient kubeClient input p = (Ok c, p') ->
  exists cfg s calls,
    aws.Region cfg = AwsRegion input
    /\ session_NewSession cfg (environ p') = Ok s
    /\ history p' = (calls ++ [CallNewSession cfg])%list
    /\ c = {| ec2Client := ec2_New s; elbClient := elb_New s;
              elbv2Client := elbv2_New s; route53Client := route53_New s |}.
Proof.
  destruct (decide (AwsRegion input = "")) as [Hregion | Hregion].
  { unfold GetAWSClient.
    destruct (decide (AwsRegion input = "")); [discriminate | contradiction]. }
  destruct (decide (SecretName input <> "" /\ NameSpace input <> "")) as [[Hname Hns] | Hno].
  - rewrite (GetAWSClient_secret_reference _ _ _ Hregion Hname Hns). cbn zeta.
    destruct (kubeclientpkg.Get kubeClient _ _) as [secret [err |]]; [discriminate |].
    destruct (corev1.Data secret !! awsCredsSecretIDKey); [| discriminate].
    destruct (corev1.Data secret !! awsCredsSecretAccessKey); [| discriminate].
    apply NewClient_success.
  - rewrite (GetAWSClient_inline _ _ _ Hregion Hno).
    destruct (decide (_ /\ _)); [discriminate |].
    apply NewClient_success.
Qed.

(** X8. Of the fetched record only the fields [aws_access_key_id] and
    [aws_secret_access_key] are read: two Kubernetes clients whose records
    agree on these two fields lead to the same result and the same process
    state, whatever else the records hold. *)
Theorem GetAWSClient_reads_two_fields (kubeClient1 kubeClient2 : kubeclientpkg.Client)
    (input : NewAwsClientInput) (p : Process) (secret1 secret2 : corev1.Secret) :
  AwsRegion input <> "" -> SecretName input <> "" -> NameSpace input <> "" ->
  kubeclientpkg.Get kubeClient1
    {| types.Name := SecretName input; types.Namespace := NameSpace input |}
    {| corev1.Data := ∅ |} = (secret1, None) ->
  kubeclientpkg.Get kubeClient2
    {| types.Name := SecretName input; types.Namespace := NameSpace input |}
    {| corev1.Data := ∅ |} = (secret2, None) ->
  corev1.Data secret1 !! "aws_access_key_id"
  = corev1.Data secret2 !! "aws_access_key_id" ->
  corev1.Data secret1 !! "aws_secret_access_key"
  = corev1.Data secret2 !! "aws_secret_access_key" ->
  GetAWSClient kubeClient1 input p = GetAWSClient kubeClient2 input p.
Proof.
  intros Hregion Hname Hns Hget1 Hget2 Hid Hkey.
  rewrite !(GetAWSClient_secret_reference _ _ _ Hregion Hname Hns). cbn zeta.
  rewrite Hget1, Hget2. unfold awsCredsSecretIDKey, awsCredsSecretAccessKey.
  rewrite Hid, Hkey. reflexivity.
Qed.

(** X9. On the secret branch with a token, the session is opened with
    static credentials made of the two values of the fetched record and the
    token of the input; the lookup and the session are the only calls, and
    the fetched values do not reach the environment. *)
Theorem GetAWSClient_secret_with_token (kubeClient : kubeclientpkg.Client)
    (input : NewAwsClientInput) (p : Process) (secret : corev1.Secret)
    (accessKeyID secretAccessKey : list byte) :
  AwsRegion input <> "" -> SecretName input <> "" -> NameSpace input <> "" ->
  AwsToken input <> "" ->
  kubeclientpkg.Get kubeClient
    {| types.Name := SecretName input; types.Namespace := NameSpace input |}
    {| corev1.Data := ∅ |} = (secret, None) ->
  corev1.Data secret !! "aws_access_key_id" = Some accessKeyID ->
  corev1.Data secret !! "aws_secret_access_key" = Some secretAccessKey ->
  (GetAWSClient kubeClient input p).2
  = {| environ := environ p;
       history :=
         history p ++
         [CallGet {| types.Name := SecretName input;
                     types.Namespace := NameSpace input |};
          CallNewSession
            {| aws.Region := AwsRegion input;
               aws.Credentials :=
                 Some (credentials.NewStaticCredentials
                         (string_of_list_byte accessKeyID)
                         (string_of_list_byte secretAccessKey)
                         (AwsToken input)) |}] |}.
Proof.
  intros Hregion Hname Hns Htoken Hget Hid Hkey.
  rewrite (GetAWSClient_secret_reference _ _ _ Hregion Hname Hns). cbn zeta.
  rewrite Hget. unfold awsCredsSecretIDKey, awsCredsSecretAccessKey.
  rewrite Hid, Hkey. rewrite NewClient_with_token by assumption.
  unfold record. cbn. rewrite <- app_assoc. reflexivity.
Qed.

(** X10. On the secret branch without token, each of the two values of the
    fetched record that holds no NUL byte is written to the environment of
    the process, under [AWS_ACCESS_KEY_ID] or [AWS_SECRET_ACCESS_KEY],
    replacing what that variable held. *)
Theorem GetAWSClient_secret_to_environment (kubeClient : kubeclientpkg.Client)
    (input : NewAwsClientInput) (p : Process) (secret : corev1.Secret)
    (accessKeyID secretAccessKey : list byte) :
  AwsRegion input <> "" -> SecretName input <> "" -> NameSpace input <> "" ->
  AwsToken input = "" ->
  kubeclientpkg.Get kubeClient
    {| types.Name := SecretName input; types.Namespace := NameSpace input |}
    {| corev1.Data := ∅ |} = (secret, None) ->
  corev1.Data secret !! "aws_access_key_id" = Some accessKeyID ->
  corev1.Data secret !! "aws_secret_access_key" = Some secretAccessKey ->
  (os.hasByte Ascii.zero (string_of_list_byte accessKeyID) = false ->
   environ (GetAWSClient kubeClient input p).2 !! "AWS_ACCESS_KEY_ID"
   = Some (string_of_list_byte accessKeyID))
  /\ (os.hasByte Ascii.zero (string_of_list_byte secretAccessKey) = false ->
      environ (GetAWSClient kubeClient input p).2 !! "AWS_SECRET_ACCESS_KEY"
      = Some (string_of_list_byte secretAccessKey)).
Proof.
  intros Hregion Hname Hns Htoken Hget Hid Hkey.
  rewrite (GetAWSClient_secret_reference _ _ _ Hregion Hname Hns). cbn zeta.
  rewrite Hget. unfold awsCredsSecretIDKey, awsCredsSecretAccessKey.
  rewrite Hid, Hkey, Htoken, NewClient_empty_token. cbn [snd environ record].
  split.
  - intros Hnul. rewrite put_lookup_ne by discriminate.
    rewrite put_access_key by assumption. apply lookup_insert_eq.
  - intros Hnul. rewrite put_secret_key by assumption. apply lookup_insert_eq.
Qed.

(** X11. A configuration that gives a region and nothing else is accepted,
    and resolving it sets both credential variables of the process to the
    empty string, whatever ambient credentials they held before. *)
Theorem GetAWSClient_region_only_clears_environment
    (kubeClient : kubeclientpkg.Client) (input : NewAwsClientInput) (p : Process) :
  AwsRegion input <> "" ->
  ~ (SecretName input <> "" /\ NameSpace input <> "") ->
  AwsCredsSecretIDKey input = "" -> AwsCredsSecretAccessKey input = "" ->
  AwsToken input = "" ->
  environ (GetAWSClient kubeClient input p).2 !! "AWS_ACCESS_KEY_ID" = Some ""
  /\ environ (GetAWSClient kubeClient input p).2 !! "AWS_SECRET_ACCESS_KEY" = Some ""
  /\ exists calls,
      history (GetAWSClient kubeClient input p).2
      = (calls ++ [CallNewSession {| aws.Region := AwsRegion input;
                                     aws.Credentials := None |}])%list.
Proof.
  intros Hregion Hno Hid Hkey Htoken.
  rewrite (GetAWSClient_inline _ _ _ Hregion Hno).
  destruct (decide (_ /\ _)) as [[_ Hne] | _]; [contradiction |].
  rewrite Hid, Hkey, Htoken, NewClient_empty_token. cbn. repeat split.
  - rewrite lookup_insert_ne by discriminate. apply lookup_insert_eq.
  - apply lookup_insert_eq.
  - exists (history p ++ [CallSetenv "AWS_ACCESS_KEY_ID" "";
                          CallSetenv "AWS_SECRET_ACCESS_KEY" ""])%list.
    rewrite <- app_assoc. reflexivity.
Qed.

(** X12. Every error [GetAWSClient] returns is one of the four messages it
    formats itself, or the very error value that the lookup or
    [session.NewSession] returned: errors of the collaborators are neither
    wrapped nor replaced. *)
Theorem GetAWSClient_errors (kubeClient : kubeclientpkg.Client)
    (input : NewAwsClientInput) (p p' : Process) (err : error) :
  GetAWSClient kubeClient input p = (Err err, p') ->
  err = errorString "getAWSClient:NoRegion: "
  \/ err = errorString ("AWS credentials secret " ++ SecretName input
                        ++ " did not contain key aws_access_key_id")
  \/ err = errorString ("AWS credentials secret " ++ SecretName input
                        ++ " did not contain key aws_secret_access_key")
  \/ err = errorString ("getAWSClient: NoAwsCredentials or Secret " ++ fmt_v input)
  \/ (exists secret,
         kubeclientpkg.Get kubeClient
           {| types.Name := SecretName input; types.Namespace := NameSpace input |}
           {| corev1.Data := ∅ |} = (secret, Some err))
  \/ (exists cfg, aws.Region cfg = AwsRegion input
                  /\ session_NewSession cfg (environ p') = Err err).
Proof.
  destruct (decide (AwsRegion input = "")) as [Hregion | Hregion].
  { unfold GetAWSClient. rewrite Hregion.
    destruct (decide ("" = "")) as [_ | Hne]; [| contradiction].
    intros Heq. injection Heq as <- _. left. reflexivity. }
  destruct (decide (SecretName input <> "" /\ NameSpace input <> "")) as [[Hname Hns] | Hno].
  - rewrite (GetAWSClient_secret_reference _ _ _ Hregion Hname Hns). cbn zeta.
    destruct (kubeclientpkg.Get kubeClient _ _) as [secret [e |]] eqn:Hget.
    { intros Heq. injection Heq as <- _. do 4 right. left. exists secret. reflexivity. }
    destruct (corev1.Data secret !! awsCredsSecretIDKey).
    2: { intros Heq. injection Heq as <- _. right. left. reflexivity. }
    destruct (corev1.Data secret !! awsCredsSecretAccessKey).
    2: { intros Heq. injection Heq as <- _. do 2 right. left. reflexivity. }
    intros Hnew. do 5 right. exact (NewClient_failure _ _ _ _ _ _ _ Hnew).
  - rewrite (GetAWSClient_inline _ _ _ Hregion Hno).
    destruct (decide (_ /\ _)).
    { intros Heq. injection Heq as <- _. do 3 right. left. reflexivity. }
    intros Hnew. do 5 right. exact (NewClient_failure _ _ _ _ _ _ _ Hnew).
Qed.

(** X13. The Kubernetes client is called only for a complete secret
    reference: when the secret name or the namespace is empty, no lookup is
    issued, with or without a region. *)
Theorem GetAWSClient_no_lookup_without_reference (kubeClient : kubeclientpkg.Client)
    (input : NewAwsClientInput) (p : Process) :
  SecretName input = "" \/ NameSpace input = "" ->
  lookups (GetAWSClient kubeClient input p).2 = lookups p.
Proof.
  intros Hempty.
  assert (Hno : ~ (SecretName input <> "" /\ NameSpace input <> ""))
    by (intros [Hn Hs]; destruct Hempty; contradiction).
  destruct (decide (AwsRegion input = "")) as [Hregion | Hregion].
  { unfold GetAWSClient.
    destruct (decide (AwsRegion input = "")); [reflexivity | contradiction]. }
  rewrite (GetAWSClient_inline _ _ _ Hregion Hno).
  destruct (decide (_ /\ _)); [reflexivity | apply NewClient_lookups].
Qed.

(** X14. With a region and a complete secret reference exactly one lookup
    is issued, for the secret name and namespace of the input, whether the
    lookup fails, a field is missing, or the client is built. *)
Theorem GetAWSClient_one_lookup (kubeClient : kubeclientpkg.Client)
    (input : NewAwsClientInput) (p : Process) :
  AwsRegion input <> "" -> SecretName input <> "" -> NameSpace input <> "" ->
  lookups (GetAWSClient kubeClient input p).2
  = (lookups p ++ [CallGet {| types.Name := SecretName input;
                              types.Namespace := NameSpace input |}])%list.
Proof.
  intros Hregion Hname Hns.
  rewrite (GetAWSClient_secret_reference _ _ _ Hregion Hname Hns). cbn zeta.
  destruct (kubeclientpkg.Get kubeClient _ _) as [secret [err |]];
    [apply lookups_record_Get |].
  destruct (corev1.Data secret !! awsCredsSecretIDKey);
    [| apply lookups_record_Get].
  destruct (corev1.Data secret !! awsCredsSecretAccessKey);
    [| apply lookups_record_Get].
  rewrite NewClient_lookups. apply lookups_record_Get.
Qed.
End ResolverOutcomes.

(** ** The further properties on concrete inputs *)

Lemma GetAWSClient_lookup_failure_witness :
  @GetAWSClient fake.types fake.sdk (failingKube (errorString "secret not found"))
    inputWithSecret fake.process
  = (Err (errorString "secret not found"),
     {| environ := ∅;
        history := [CallGet {| types.Name := "x"; types.Namespace := "y" |}] |}).
Proof.
  apply (@GetAWSClient_lookup_failure fake.types fake.sdk
           (failingKube (errorString "secret not found")) inputWithSecret
           fake.process {| corev1.Data := ∅ |});
    first [discriminate | reflexivity].
Defined.

Lemma NewClient_failure_keeps_environment_witness :
  (@NewClient fake.types offlineSdk "AKIA" "hunter2" "" "us-east-1" fake.process).1
  = Err (awserrError "NoCredentialProviders" "no valid providers in chain")
  /\ environ (@NewClient fake.types offlineSdk "AKIA" "hunter2" "" "us-east-1"
                fake.process).2 !! "AWS_ACCESS_KEY_ID" = Some "AKIA"
  /\ environ (@NewClient fake.types offlineSdk "AKIA" "hunter2" "" "us-east-1"
                fake.process).2 !! "AWS_SECRET_ACCESS_KEY" = Some "hunter2".
Proof.
  split; [reflexivity |].
  destruct (@NewClient_failure_keeps_environment fake.types offlineSdk
              "AKIA" "hunter2" "us-east-1" fake.process
              (awserrError "NoCredentialProviders" "no valid providers in chain")
              eq_refl eq_refl eq_refl) as (_ & Hid & Hkey).
  split; [exact Hid | exact Hkey].
Defined.

Lemma NewClient_last_call_wins_witness :
  environ (@NewClient fake.types fake.sdk "AKIA" "hunter2" "" "us-east-1"
             (@NewClient fake.types fake.sdk accessIDWithNul "first-secret" ""
                "eu-west-1" processWithAmbient).2).2
  = environ (@NewClient fake.types fake.sdk "AKIA" "hunter2" "" "us-east-1"
               processWithAmbient).2
  /\ environ (@NewClient fake.types fake.sdk "AKIA" "hunter2" "" "us-east-1"
                (@NewClient fake.types fake.sdk accessIDWithNul "first-secret" ""
                   "eu-west-1" processWithAmbient).2).2
       !! "AWS_ACCESS_KEY_ID" = Some "AKIA"
  /\ environ (@NewClient fake.types fake.sdk "AKIA" "hunter2" "" "us-east-1"
                (@NewClient fake.types fake.sdk accessIDWithNul "first-secret" ""
                   "eu-west-1" processWithAmbient).2).2
       !! "AWS_SECRET_ACCESS_KEY" = Some "hunter2".
Proof.
  apply (@NewClient_last_call_wins fake.types fake.sdk
           accessIDWithNul "first-secret" "eu-west-1"
           "AKIA" "hunter2" "us-east-1" processWithAmbient);
    reflexivity.
Defined.

Lemma GetAWSClient_environment_frame_witness :
  environ (@GetAWSClient fake.types fake.sdk (fake.kube secretWithAwsKeys)
             inputInline processWithAmbient).2 !! "HOME" = Some "/root"
  /\ environ (@GetAWSClient fake.types fake.sdk (fake.kube secretWithAwsKeys)
                inputInline processWithAmbient).2 !! "AWS_ACCESS_KEY_ID"
     = Some "inline-id".
Proof.
  split; [| reflexivity].
  rewrite (@GetAWSClient_environment_frame fake.types fake.sdk
             (fake.kube secretWithAwsKeys) inputInline processWithAmbient "HOME")
    by discriminate.
  reflexivity.
Defined.

Lemma GetAWSClient_token_keeps_environment_witness :
  environ (@GetAWSClient fake.types fake.sdk (fake.kube secretWithAwsKeys)
             inputWithSecretAndToken processWithAmbient).2
  = environ processWithAmbient.
Proof.
  apply (@GetAWSClient_token_keeps_environment fake.types fake.sdk). discriminate.
Defined.

Lemma GetAWSClient_error_shows_secret_witness :
  exists before after : string,
    @GetAWSClient fake.types fake.sdk (fake.kube secretWithAwsKeys)
      inputSecretOnly fake.process
    = (Err (errorString (before ++ "inline-secret" ++ after)), fake.process).
Proof.
  apply (@GetAWSClient_error_shows_secret fake.types fake.sdk
           (fake.kube secretWithAwsKeys) inputSecretOnly fake.process).
  - discriminate.
  - intros [Hname _]. apply Hname. reflexivity.
  - reflexivity.
  - discriminate.
Defined.

Lemma GetAWSClient_success_session_witness :
  exists (cfg : aws.Config) (s : @Session fake.types) (calls : list Call),
    aws.Region cfg = "us-east-1"
    /\ @session_NewSession fake.types fake.sdk cfg
         (environ (@GetAWSClient fake.types fake.sdk (fake.kube secretWithAwsKeys)
                     inputWithSecret fake.process).2) = Ok s
    /\ history (@GetAWSClient fake.types fake.sdk (fake.kube secretWithAwsKeys)
                  inputWithSecret fake.process).2
       = (calls ++ [CallNewSession cfg])%list
    /\ fake.client
       = {| ec2Client := @ec2_New fake.types fake.sdk s;
            elbClient := @elb_New fake.types fake.sdk s;
            elbv2Client := @elbv2_New fake.types fake.sdk s;
            route53Client := @route53_New fake.types fake.sdk s |}.
Proof.
  apply (@GetAWSClient_success_session fake.types fake.sdk
           (fake.kube secretWithAwsKeys) inputWithSecret fake.process
           (@GetAWSClient fake.types fake.sdk (fake.kube secretWithAwsKeys)
              inputWithSecret fake.process).2 fake.client).
  reflexivity.
Defined.

Lemma GetAWSClient_reads_two_fields_witness :
  secretWithAwsKeys <> secretWithExtraFields
  /\ @GetAWSClient fake.types fake.sdk (fake.kube secretWithAwsKeys)
       inputWithSecret fake.process
     = @GetAWSClient fake.types fake.sdk (fake.kube secretWithExtraFields)
         inputWithSecret fake.process.
Proof.
  split.
  - intros Heq. apply (f_equal (fun m => m !! "region")) in Heq. discriminate Heq.
  - apply (@GetAWSClient_reads_two_fields fake.types fake.sdk
             (fake.kube secretWithAwsKeys) (fake.kube secretWithExtraFields)
             inputWithSecret fake.process
             {| corev1.Data := secretWithAwsKeys |}
             {| corev1.Data := secretWithExtraFields |});
      first [discriminate | reflexivity].
Defined.

Lemma GetAWSClient_secret_with_token_witness :
  (@GetAWSClient fake.types fake.sdk (fake.kube secretWithAwsKeys)
     inputWithSecretAndToken processWithAmbient).2
  = {| environ := environ processWithAmbient;
       history :=
         [CallGet {| types.Name := "x"; types.Namespace := "y" |};
          CallNewSession
            {| aws.Region := "us-east-1";
               aws.Credentials :=
                 Some (credentials.NewStaticCredentials "AKIA" "hunter2" "token") |}] |}.
Proof.
  apply (@GetAWSClient_secret_with_token fake.types fake.sdk
           (fake.kube secretWithAwsKeys) inputWithSecretAndToken processWithAmbient
           {| corev1.Data := secretWithAwsKeys |}
           (list_byte_of_string "AKIA") (list_byte_of_string "hunter2"));
    first [discriminate | reflexivity].
Defined.

Lemma GetAWSClient_secret_to_environment_witness :
  environ processWithAmbient !! "AWS_ACCESS_KEY_ID" = Some "ambient-id"
  /\ environ (@GetAWSClient fake.types fake.sdk (fake.kube secretWithAwsKeys)
                inputWithSecret processWithAmbient).2 !! "AWS_ACCESS_KEY_ID"
     = Some "AKIA"
  /\ environ (@GetAWSClient fake.types fake.sdk (fake.kube secretWithAwsKeys)
                inputWithSecret processWithAmbient).2 !! "AWS_SECRET_ACCESS_KEY"
     = Some "hunter2".
Proof.
  split; [reflexivity |].
  destruct (@GetAWSClient_secret_to_environment fake.types fake.sdk
              (fake.kube secretWithAwsKeys) inputWithSecret processWithAmbient
              {| corev1.Data := secretWithAwsKeys |}
              (list_byte_of_string "AKIA") (list_byte_of_string "hunter2"))
    as [Hid Hkey]; first [discriminate | reflexivity | idtac].
  split; [exact (Hid eq_refl) | exact (Hkey eq_refl)].
Defined.

Lemma GetAWSClient_region_only_clears_environment_witness :
  environ processWithAmbient !! "AWS_ACCESS_KEY_ID" = Some "ambient-id"
  /\ environ (@GetAWSClient fake.types fake.sdk (fake.kube secretWithAwsKeys)
                inputRegionOnly processWithAmbient).2 !! "AWS_ACCESS_KEY_ID"
     = Some ""
  /\ environ (@GetAWSClient fake.types fake.sdk (fake.kube secretWithAwsKeys)
                inputRegionOnly processWithAmbient).2 !! "AWS_SECRET_ACCESS_KEY"
     = Some "".
Proof.
  split; [reflexivity |].
  destruct (@GetAWSClient_region_only_clears_environment fake.types fake.sdk
              (fake.kube secretWithAwsKeys) inputRegionOnly processWithAmbient)
    as (Hid & Hkey & _);
    [discriminate | intros [Hname _]; apply Hname; reflexivity
     | reflexivity | reflexivity | reflexivity |].
  split; [exact Hid | exact Hkey].
Defined.

Lemma GetAWSClient_errors_witness :
  awserrError "Forbidden" "secrets is forbidden"
  = errorString "getAWSClient:NoRegion: "
  \/ awserrError "Forbidden" "secrets is forbidden"
     = errorString "AWS credentials secret x did not contain key aws_access_key_id"
  \/ awserrError "Forbidden" "secrets is forbidden"
     = errorString "AWS credentials secret x did not contain key aws_secret_access_key"
  \/ awserrError "Forbidden" "secrets is forbidden"
     = errorString ("getAWSClient: NoAwsCredentials or Secret "
                    ++ fmt_v inputWithSecret)
  \/ (exists secret,
         kubeclientpkg.Get
           (failingKube (awserrError "Forbidden" "secrets is forbidden"))
           {| types.Name := "x"; types.Namespace := "y" |}
           {| corev1.Data := ∅ |}
         = (secret, Some (awserrError "Forbidden" "secrets is forbidden")))
  \/ (exists cfg, aws.Region cfg = "us-east-1"
                  /\ @session_NewSession fake.types fake.sdk cfg
                       (environ (record (CallGet {| types.Name := "x";
                                                    types.Namespace := "y" |})
                                   fake.process))
                     = Err (awserrError "Forbidden" "secrets is forbidden")).
Proof.
  apply (@GetAWSClient_errors fake.types fake.sdk
           (failingKube (awserrError "Forbidden" "secrets is forbidden"))
           inputWithSecret fake.process
           (record (CallGet {| types.Name := "x"; types.Namespace := "y" |})
              fake.process)).
  reflexivity.
Defined.

Lemma GetAWSClient_no_lookup_without_reference_witness :
  lookups (@GetAWSClient fake.types fake.sdk (fake.kube secretWithAwsKeys)
             inputInline fake.process).2 = [].
Proof.
  apply (@GetAWSClient_no_lookup_without_reference fake.types fake.sdk
           (fake.kube secretWithAwsKeys) inputInline fake.process).
  left. reflexivity.
Defined.

Lemma GetAWSClient_one_lookup_witness :
  lookups (@GetAWSClient fake.types fake.sdk
             (failingKube (errorString "secret not found"))
             inputWithSecret fake.process).2
  = [CallGet {| types.Name := "x"; types.Namespace := "y" |}].
Proof.
  apply (@GetAWSClient_one_lookup fake.types fake.sdk
           (failingKube (errorString "secret not found")) inputWithSecret
           fake.process);
    discriminate.
Defined.
